(** * Dify2OpenAI: the workflow handler (workflowHandler.js)

    A shallow embedding of [uploadFileToDify] and [handleRequest], the two
    functions of the workflow handler, together with the properties of the
    request and response translation that the specification states.

    JavaScript strings are represented by [string], holding the UTF-8
    encoding of the text: every string operation the handler uses
    ([startsWith], [slice], [split], [trim], [+], [includes]) works with
    ASCII delimiters only, so it commutes with this encoding. *)

From Stdlib Require Import ZArith Ascii String List Bool Lia.
From Stdlib.Strings Require Import Byte.
From Stdlib Require DecimalString.
From stdpp Require Import base strings list gmap.

Local Open Scope Z_scope.
Import ListNotations.

(** ** JavaScript strings *)

Module JsString.

Definition nl : ascii := "010"%char.
Definition dq : ascii := "034"%char.
Definition cr : ascii := "013"%char.

(** ["\n"] and ["\n\n"], as the source writes them. *)
Definition LF : string := String nl "".
Definition LFLF : string := String nl (String nl "").

(** [s.startsWith(p)] *)
Fixpoint startsWith (s p : string) {struct p} : bool :=
  match p with
  | EmptyString => true
  | String a p' =>
      match s with
      | String b s' => Ascii.eqb a b && startsWith s' p'
      | EmptyString => false
      end
  end.

(** [s.slice(n)] for [n >= 0] *)
Fixpoint slice (n : nat) (s : string) : string :=
  match n, s with
  | O, _ => s
  | S n', String _ s' => slice n' s'
  | S _, EmptyString => EmptyString
  end.

(** [s.includes(p)] *)
Fixpoint includes (s p : string) : bool :=
  startsWith s p ||
  match s with
  | EmptyString => false
  | String _ s' => includes s' p
  end.

(** [s.split(sep)] for a one-character separator: never empty, the last
    element is what follows the last separator. *)
Fixpoint split (sep : ascii) (s : string) : list string :=
  match s with
  | EmptyString => [EmptyString]
  | String c s' =>
      if Ascii.eqb c sep then EmptyString :: split sep s'
      else match split sep s' with
           | [] => [String c EmptyString]
           | l :: ls => String c l :: ls
           end
  end.

Definition rev (s : string) : string :=
  string_of_list_ascii (List.rev (list_ascii_of_string s)).

(** [s.endsWith(p)] *)
Definition endsWith (s p : string) : bool := startsWith (rev s) (rev p).

(** White space and line terminators of ECMAScript, which [trim] strips.
    One-byte ones: TAB, LF, VT, FF, CR, SP. *)
Definition ws1 (a : ascii) : bool :=
  match a with
  | "009" | "010" | "011" | "012" | "013" | " " => true
  | _ => false
  end%char.

(** U+00A0, encoded C2 A0. *)
Definition ws2 (a b : ascii) : bool :=
  match a, b with
  | "194", "160" => true
  | _, _ => false
  end%char.

(** U+1680 (E1 9A 80), U+2000..U+200A (E2 80 80..8A), U+2028, U+2029
    (E2 80 A8, A9), U+202F (E2 80 AF), U+205F (E2 81 9F), U+3000
    (E3 80 80) and U+FEFF (EF BB BF). *)
Definition ws3 (a b c : ascii) : bool :=
  match a, b, c with
  | "225", "154", "128" => true
  | "226", "128", x =>
      let n := nat_of_ascii x in
      ((128 <=? n)%nat && (n <=? 138)%nat)
      || (n =? 168)%nat || (n =? 169)%nat || (n =? 175)%nat
  | "226", "129", "159" => true
  | "227", "128", "128" => true
  | "239", "187", "191" => true
  | _, _, _ => false
  end%char.

(** [s.trimStart()] *)
Fixpoint trimStart (s : string) : string :=
  match s with
  | EmptyString => s
  | String a s1 =>
      if ws1 a then trimStart s1
      else match s1 with
           | EmptyString => s
           | String b s2 =>
               if ws2 a b then trimStart s2
               else match s2 with
                    | EmptyString => s
                    | String c s3 => if ws3 a b c then trimStart s3 else s
                    end
           end
  end.

(** The same on the reversed string: the encoded characters are met last
    byte first. *)
Fixpoint trimStart_rev (s : string) : string :=
  match s with
  | EmptyString => s
  | String a s1 =>
      if ws1 a then trimStart_rev s1
      else match s1 with
           | EmptyString => s
           | String b s2 =>
               if ws2 b a then trimStart_rev s2
               else match s2 with
                    | EmptyString => s
                    | String c s3 => if ws3 c b a then trimStart_rev s3 else s
                    end
           end
  end.

(** [s.trimEnd()] *)
Definition trimEnd (s : string) : string := rev (trimStart_rev (rev s)).

(** [s.trim()] *)
Definition trim (s : string) : string := trimEnd (trimStart s).

End JsString.

Import JsString.

(** ** JavaScript values

    The values the handler meets are those of JSON documents (the request
    body, the backend's replies) plus [undefined]. Numbers are the integers:
    the handler only reads token counts and time stamps. *)

#[local] Unset Elimination Schemes.
Inductive jsval : Type :=
| VUndef
| VNull
| VBool (b : bool)
| VNum (n : Z)
| VStr (s : string)
| VArr (items : list jsval)
| VObj (fields : list (string * jsval)).
#[local] Set Elimination Schemes.

(** What a JavaScript evaluation ends in: a value, or a thrown error. *)
Inductive error : Type :=
| TypeError (what : string)
| SyntaxError (what : string)
| FetchError (what : string)
| Error (message : string).

Inductive outcome (A : Type) : Type :=
| Ok (a : A)
| Throw (e : error).
Arguments Ok {A} a.
Arguments Throw {A} e.

Module Js.

(** [error.message] *)
Definition message (e : error) : string :=
  match e with
  | TypeError m | SyntaxError m | FetchError m | Error m => m
  end.

(** ToBoolean: what [if (v)], [!v], [a && b] and [a || b] test. *)
Definition truthy (v : jsval) : bool :=
  match v with
  | VUndef | VNull => false
  | VBool b => b
  | VNum n => negb (Z.eqb n 0)
  | VStr s => negb (String.eqb s "")
  | VArr _ | VObj _ => true
  end.

(** [a || b] *)
Definition or (a b : jsval) : jsval := if truthy a then a else b.

(** The first binding of a key among the own properties of an object. *)
Fixpoint assoc (k : string) (fields : list (string * jsval)) : jsval :=
  match fields with
  | [] => VUndef
  | (k', v) :: rest => if String.eqb k k' then v else assoc k rest
  end.

(** [v[k]] and [v.k]. Reading a property of [undefined] or [null] throws;
    a key that an object does not have reads as [undefined]. The keys the
    handler reads are field names of JSON documents and configured variable
    names: inherited members and the indices and [length] of strings and
    arrays are not among them, so every other value reads as [undefined]. *)
Definition get (v : jsval) (k : string) : outcome jsval :=
  match v with
  | VUndef => Throw (TypeError ("Cannot read properties of undefined (reading '" +:+ k +:+ "')"))
  | VNull => Throw (TypeError ("Cannot read properties of null (reading '" +:+ k +:+ "')"))
  | VObj fields => Ok (assoc k fields)
  | _ => Ok VUndef
  end.

Definition isUndefined (v : jsval) : bool :=
  match v with VUndef => true | _ => false end.

Definition isArray (v : jsval) : bool :=
  match v with VArr _ => true | _ => false end.

(** [typeof v === "string"] *)
Definition isString (v : jsval) : bool :=
  match v with VStr _ => true | _ => false end.

(** [v === "..."] *)
Definition eqStr (v : jsval) (s : string) : bool :=
  match v with VStr s' => String.eqb s' s | _ => false end.

Definition decimal (n : Z) : string :=
  DecimalString.NilZero.string_of_int (Z.to_int n).

Fixpoint join (sep : string) (l : list string) : string :=
  match l with
  | [] => ""
  | [s] => s
  | s :: rest => s +:+ sep +:+ join sep rest
  end.

(** ToString: [String(v)], [v + "\n"] and template literals. *)
Fixpoint toString (v : jsval) : string :=
  match v with
  | VUndef => "undefined"
  | VNull => "null"
  | VBool true => "true"
  | VBool false => "false"
  | VNum n => decimal n
  | VStr s => s
  | VArr items =>
      join "," (List.map (fun x => match x with
                                   | VUndef | VNull => ""
                                   | _ => toString x
                                   end) items)
  | VObj _ => "[object Object]"
  end.

Definition hexdigit (n : nat) : ascii :=
  ascii_of_nat (if (n <? 10)%nat then 48 + n else 87 + n)%nat.

(** One character of a string inside a JSON string literal. *)
Definition quoteChar (a : ascii) : string :=
  match a with
  | "034"%char => String "\" (String dq "")
  | "\"%char => "\\"
  | "008"%char => "\b"
  | "009"%char => "\t"
  | "010"%char => "\n"
  | "012"%char => "\f"
  | "013"%char => "\r"
  | _ =>
      let n := nat_of_ascii a in
      if (n <? 32)%nat
      then "\u00" +:+ String (hexdigit (n / 16)) (String (hexdigit (n mod 16)) "")
      else String a ""
  end.

Fixpoint quoteChars (s : string) : string :=
  match s with
  | EmptyString => ""
  | String a s' => quoteChar a +:+ quoteChars s'
  end.

Definition quote (s : string) : string := String dq (quoteChars s +:+ String dq "").

(** [JSON.stringify(v)] of a value other than [undefined]: a property
    whose value is [undefined] is left out, an [undefined] array element is
    written [null]. *)
Fixpoint stringify (v : jsval) : string :=
  match v with
  | VUndef | VNull => "null"
  | VBool true => "true"
  | VBool false => "false"
  | VNum n => decimal n
  | VStr s => quote s
  | VArr items => "[" +:+ join "," (List.map stringify items) +:+ "]"
  | VObj fields =>
      "{" +:+ join "," (List.flat_map
                    (fun kv : string * jsval => let (k, x) := kv in
                               if isUndefined x then @nil string
                               else [quote k +:+ ":" +:+ stringify x])
                    fields) +:+ "}"
  end.

(** [JSON.stringify(v, null, 2)]: the same document, one element or
    property a line, indented by two spaces a level; [ind] is the
    indentation of the line the value starts on. *)
Fixpoint stringify2 (ind : string) (v : jsval) : string :=
  let ind' := ind +:+ "  " in
  let block (opening closing : string) (lines : list string) : string :=
    match lines with
    | [] => opening +:+ closing
    | _ => opening +:+ LF +:+ ind' +:+ join ("," +:+ LF +:+ ind') lines
           +:+ LF +:+ ind +:+ closing
    end in
  match v with
  | VArr items => block "[" "]" (List.map (stringify2 ind') items)
  | VObj fields =>
      block "{" "}" (List.flat_map
                       (fun kv : string * jsval => let (k, x) := kv in
                          if isUndefined x then @nil string
                          else [quote k +:+ ": " +:+ stringify2 ind' x])
                       fields)
  | _ => stringify v
  end.

End Js.

(** ** Buffers

    A chunk of a response body is a [Buffer], a sequence of bytes.
    [chunk.toString()] decodes it as UTF-8, on its own: every ill-formed or
    truncated sequence becomes U+FFFD. *)

Module Buffer.

(** U+FFFD, encoded EF BF BD. *)
Definition REPLACEMENT : string :=
  String "239"%char (String "191"%char (String "189"%char "")).

(** The decoder between two bytes: the bytes of the sequence read so far,
    how many more it needs, and the range allowed for the next one. *)
Record decoder : Type := {
  pending : string;
  needed : nat;
  lower : N;
  upper : N
}.

Definition idle : decoder :=
  {| pending := ""; needed := 0; lower := 128; upper := 191 |}.

Definition expect (a : ascii) (k : nat) (lo hi : N) : string * decoder :=
  ("", {| pending := String a ""; needed := k; lower := lo; upper := hi |}).

(** A byte met outside a sequence. *)
Definition lead (b : byte) : string * decoder :=
  let n := Byte.to_N b in
  let a := ascii_of_byte b in
  if (n <=? 127)%N then (String a "", idle)
  else if ((194 <=? n) && (n <=? 223))%N then expect a 1 128 191
  else if (n =? 224)%N then expect a 2 160 191
  else if (n =? 237)%N then expect a 2 128 159
  else if ((225 <=? n) && (n <=? 239))%N then expect a 2 128 191
  else if (n =? 240)%N then expect a 3 144 191
  else if (n =? 244)%N then expect a 3 128 143
  else if ((241 <=? n) && (n <=? 243))%N then expect a 3 128 191
  else (REPLACEMENT, idle).

Definition step (d : decoder) (b : byte) : string * decoder :=
  match needed d with
  | O => lead b
  | S k =>
      let n := Byte.to_N b in
      if ((lower d <=? n) && (n <=? upper d))%N then
        let p := pending d +:+ String (ascii_of_byte b) "" in
        match k with
        | O => (p, idle)
        | S _ => ("", {| pending := p; needed := k; lower := 128; upper := 191 |})
        end
      else
        let (out, d') := lead b in (REPLACEMENT +:+ out, d')
  end.

Fixpoint decode (d : decoder) (bs : list byte) : string :=
  match bs with
  | [] => match needed d with O => "" | S _ => REPLACEMENT end
  | b :: bs' => let (out, d') := step d b in out +:+ decode d' bs'
  end.

(** [buf.toString()] *)
Definition toString (buf : list byte) : string := decode idle buf.

(** The decoder after some bytes, and what it has written by then. *)
Fixpoint feed (d : decoder) (bs : list byte) : string * decoder :=
  match bs with
  | [] => ("", d)
  | b :: bs' =>
      let (out, d') := step d b in
      let (out', d'') := feed d' bs' in
      (out +:+ out', d'')
  end.

(** What the end of the input adds. *)
Definition flush (d : decoder) : string :=
  match needed d with
  | O => ""
  | S _ => REPLACEMENT
  end.

(** The bytes end between two characters. *)
Definition at_boundary (bs : list byte) : Prop := snd (feed idle bs) = idle.

(** [Buffer.concat(bufs)] *)
Definition concat (bufs : list (list byte)) : list byte := List.concat bufs.

End Buffer.

(** ** The regular expression of the uploader *)

Module DataUri.

(** U+2028 and U+2029, encoded E2 80 A8 and E2 80 A9. *)
Definition LS : string := String "226"%char (String "128"%char (String "168"%char "")).
Definition PS : string := String "226"%char (String "128"%char (String "169"%char "")).

(** [.] matches any character but a line terminator: LF, CR, U+2028,
    U+2029. *)
Definition has_line_terminator (s : string) : bool :=
  includes s LF || includes s (String cr "") || includes s LS || includes s PS.

Definition separator : string := ";base64,".

(** The last place where [s] reads [;base64,] followed by at least one
    character: what the greedy first group leaves to the rest of the
    pattern. *)
Fixpoint split_last (s : string) : option (string * string) :=
  match s with
  | EmptyString => None
  | String c s' =>
      match split_last s' with
      | Some (m, p) => Some (String c m, p)
      | None =>
          if startsWith s separator && negb (String.eqb (slice 8 s) "")
          then Some ("", slice 8 s)
          else None
      end
  end.

(** [s.match(/^data:(.+);base64,(.+)$/)]: the two groups, or [None] for
    [null]. *)
Definition exec (s : string) : option (string * string) :=
  if startsWith s "data:" && negb (has_line_terminator s) then
    match split_last (slice 5 s) with
    | Some (String c m, p) => Some (String c m, p)
    | _ => None
    end
  else None.

End DataUri.

(** ** The handler's surroundings *)

(** The resolved configuration object. *)
Record config : Type := {
  DIFY_API_URL : string;
  API_KEY : string;
  USER : option string;
  SYSTEM_INPUT_VARIABLE : option string;
  INPUT_VARIABLE : option string;
  OUTPUT_VARIABLE : option string
}.

(** A configuration field as a value: an absent one is [undefined]. *)
Definition field (o : option string) : jsval :=
  match o with
  | Some s => VStr s
  | None => VUndef
  end.

(** The multipart form of an upload. *)
Record form_data : Type := {
  form_file : list byte;
  form_filename : string;
  form_contentType : string;
  form_user : jsval
}.

(** The body of the workflow call, before [JSON.stringify]. *)
Record request_body : Type := {
  body_inputs : gmap string jsval;
  body_response_mode : string;
  body_user : jsval;
  body_files : list jsval
}.

(** The two requests the handler sends to the backend. *)
Inductive http_call : Type :=
| PostFilesUpload (url authorization : string) (form : form_data)
| PostWorkflowsRun (url authorization : string) (body : request_body).

(** A response of the backend: the body arrives in chunks. *)
Record response : Type := {
  status : Z;
  statusText : string;
  content_type : option string;
  body : list (list byte)
}.

(** [response.ok] *)
Definition ok (r : response) : bool := (200 <=? status r) && (status r <=? 299).

(** [await response.text()] *)
Definition text (r : response) : string := Buffer.toString (Buffer.concat (body r)).

(** What the handler does to the response [res] of its own client. *)
Inductive res_op : Type :=
| ResSetHeader (name value : string)
| ResStatus (code : Z)
| ResWrite (data : string)
| ResEnd
| ResSend (data : string)
| ResJson (doc : jsval).

(** The state a request runs in: the requests sent to the backend so far
    and the operations made on [res], both oldest first. *)
Record world : Type := {
  calls : list http_call;
  res : list res_op
}.

Definition start : world := {| calls := []; res := [] |}.

(** Computations that read and extend the [world] and may throw. *)
Definition M (A : Type) : Type := world -> outcome A * world.

Definition ret {A} (a : A) : M A := fun w => (Ok a, w).
Definition throw {A} (e : error) : M A := fun w => (Throw e, w).
Definition bind {A B} (m : M A) (k : A -> M B) : M B :=
  fun w => match m w with
           | (Ok a, w') => k a w'
           | (Throw e, w') => (Throw e, w')
           end.

(** [try { m } catch (e) { h(e) }] *)
Definition try_catch {A} (m : M A) (h : error -> M A) : M A :=
  fun w => match m w with
           | (Ok a, w') => (Ok a, w')
           | (Throw e, w') => h e w'
           end.

Definition lift {A} (o : outcome A) : M A :=
  match o with
  | Ok a => ret a
  | Throw e => throw e
  end.

Declare Scope js_scope.
Delimit Scope js_scope with js.
Notation "'let!' x ':=' m 'in' k" := (bind m (fun x => k))
  (at level 10, x name, m at level 100, k at level 200) : js_scope.
Notation "m ';;' k" := (bind m (fun _ => k))
  (at level 100, k at level 200, right associativity) : js_scope.
Local Open Scope js_scope.

(** An operation on [res]. *)
Definition res_do (op : res_op) : M unit :=
  fun w => (Ok tt, {| calls := calls w; res := res w ++ [op] |}).

(** [for (const x of xs) { body }], threading the variables the body
    assigns. *)
Fixpoint forOf {A S} (xs : list A) (body : S -> A -> M S) (s : S) : M S :=
  match xs with
  | [] => ret s
  | x :: xs' => let! s' := body s x in forOf xs' body s'
  end.

(** What [for ... of] iterates over: the elements of an array, the
    characters of a string; anything else is not iterable. *)
Definition iterate (v : jsval) : outcome (list jsval) :=
  match v with
  | VArr items => Ok items
  | VStr s => Ok (List.map (fun a => VStr (String a "")) (list_ascii_of_string s))
  | _ => Throw (TypeError "value is not iterable")
  end.

(** [arr.push(x)] *)
Definition push (arr x : jsval) : outcome jsval :=
  match arr with
  | VArr items => Ok (VArr (items ++ [x]))
  | _ => Throw (TypeError "push is not a function")
  end.

(** [s.startsWith(p)] on a value that need not be a string. *)
Definition startsWith_val (v : jsval) (p : string) : outcome bool :=
  match v with
  | VStr s => Ok (startsWith s p)
  | VUndef | VNull => Throw (TypeError "Cannot read properties (reading 'startsWith')")
  | _ => Throw (TypeError "startsWith is not a function")
  end.

(** [inputs[k]] on the object the handler builds. *)
Definition read (inputs : gmap string jsval) (k : string) : jsval :=
  default VUndef (inputs !! k).

(** The variables the streaming listener closes over. *)
Record stream_state : Type := {
  buffer : string;
  isResponseEnded : bool
}.

(** The variables the listeners of the collecting path close over. *)
Record collect_state : Type := {
  c_result : jsval;
  c_usageData : jsval;
  c_buffer : string;
  c_hasError : bool
}.

(** What [handleRequest] leaves behind when it returns: nothing, or
    listeners on the body of the backend's response. *)
Inductive listening : Type :=
| Finished
| OnStream (r : response)
| OnCollect (r : response).

Section WorkflowHandler.

(** Built-ins of the runtime: [JSON.parse] ([None] when it throws),
    [Buffer.from(s, "base64")], and the reading of the clock, [Date.now()],
    which is taken to be the same all through a request. *)
Variable JSON_parse : string -> option jsval.
Variable Buffer_from_base64 : string -> list byte.
Variable Date_now : Z.

(** The helpers of utils.js. *)
Variable getFileExtension : string -> jsval.
Variable getFileType : jsval -> jsval.
Variable generateId : unit -> string.

(** The backend: its answer to a request, given the requests it had
    before. *)
Variable backend : list http_call -> http_call -> outcome response.

(** [await fetch(...)] *)
Definition fetch (c : http_call) : M response :=
  fun w => (backend (calls w) c, {| calls := calls w ++ [c]; res := res w |}).

(** [JSON.parse(s)] *)
Definition parse (s : string) : outcome jsval :=
  match JSON_parse s with
  | Some v => Ok v
  | None => Throw (SyntaxError "Unexpected token in JSON")
  end.

(** [await response.json()] *)
Definition json (r : response) : outcome jsval := parse (text r).

(** *** uploadFileToDify

    Appending a [Buffer] to the form does not throw, so the inner [catch]
    is not entered; the outer one rethrows what it catches. *)
Definition uploadFileToDify (base64Data : string) (config : config) (userId : jsval)
  : M jsval :=
  match DataUri.exec base64Data with
  | None => throw (Error "Invalid base64 data")
  | Some (matches1, base64String) =>
      let fileData := Buffer_from_base64 base64String in
      let contentType :=
        if String.eqb matches1 "image/jpg" then "image/jpeg" else matches1 in
      let fileExtension := nth 1 (List.map VStr (split "/" contentType)) VUndef in
      let filename := "file." +:+ Js.toString fileExtension in
      let form := {| form_file := fileData;
                     form_filename := filename;
                     form_contentType := contentType;
                     form_user := userId |} in
      let! response := fetch (PostFilesUpload (DIFY_API_URL config +:+ "/files/upload")
                                              ("Bearer " +:+ API_KEY config) form) in
      if negb (ok response) then
        throw (Error ("文件上传失败: " +:+ Js.decimal (status response) +:+ " "
                      +:+ statusText response +:+ ": " +:+ text response))
      else
        let! result := lift (json response) in
        lift (Js.get result "id")
  end.

(** *** handleRequest, first step: the images of all messages *)

(** [if (!inputs["file_input"]) inputs["file_input"] = [];
    inputs["file_input"].push(fileInput)] *)
Definition add_file_input (inputs : gmap string jsval) (fileInput : jsval)
  : outcome (gmap string jsval) :=
  let inputs1 :=
    if Js.truthy (read inputs "file_input") then inputs
    else <["file_input" := VArr []]> inputs in
  match push (read inputs1 "file_input") fileInput with
  | Ok arr => Ok (<["file_input" := arr]> inputs1)
  | Throw e => Throw e
  end.

Definition scan_part (config : config) (userId : jsval)
    (inputs : gmap string jsval) (content : jsval) : M (gmap string jsval) :=
  let! type := lift (Js.get content "type") in
  if negb (Js.eqStr type "image_url") then ret inputs else
  let! image_url := lift (Js.get content "image_url") in
  if negb (Js.truthy image_url) then ret inputs else
  let! imageUrl := lift (Js.get image_url "url") in
  if negb (Js.truthy imageUrl) then ret inputs else
  let! isData := lift (startsWith_val imageUrl "data:") in
  let fileType := getFileType (getFileExtension (Js.toString imageUrl)) in
  if isData then
    let! fileId := uploadFileToDify (Js.toString imageUrl) config userId in
    lift (add_file_input inputs
            (VObj [("transfer_method", VStr "local_file");
                   ("upload_file_id", fileId);
                   ("type", fileType)]))
  else
    lift (add_file_input inputs
            (VObj [("transfer_method", VStr "remote_url");
                   ("url", imageUrl);
                   ("type", fileType)])).

Definition scan_message (config : config) (userId : jsval)
    (inputs : gmap string jsval) (message : jsval) : M (gmap string jsval) :=
  let! content := lift (Js.get message "content") in
  match content with
  | VArr parts => forOf parts (scan_part config userId) inputs
  | _ => ret inputs
  end.

(** *** Second step: the system prompt and the user query *)

Definition system_part (systemPrompt : string) (content : jsval) : M string :=
  if Js.isString content then ret (systemPrompt +:+ Js.toString content +:+ LF)
  else
    let! type := lift (Js.get content "type") in
    if Js.eqStr type "text" then
      let! t := lift (Js.get content "text") in
      ret (systemPrompt +:+ Js.toString t +:+ LF)
    else ret systemPrompt.

Definition system_message (systemPrompt : string) (message : jsval) : M string :=
  let! role := lift (Js.get message "role") in
  if negb (Js.eqStr role "system") then ret systemPrompt else
  let! content := lift (Js.get message "content") in
  match content with
  | VArr parts => forOf parts system_part systemPrompt
  | _ => ret (systemPrompt +:+ Js.toString content +:+ LF)
  end.

Definition user_part (userQuery : string) (content : jsval) : M string :=
  if Js.isString content then ret (userQuery +:+ Js.toString content +:+ LF)
  else if negb (Js.truthy content) then ret userQuery
  else
    let! type := lift (Js.get content "type") in
    if negb (Js.eqStr type "text") then ret userQuery else
    let! t := lift (Js.get content "text") in
    if Js.isString t then ret (userQuery +:+ Js.toString t +:+ LF)
    else ret userQuery.

Definition user_message (userQuery : string) (message : jsval) : M string :=
  let! role := lift (Js.get message "role") in
  if negb (Js.eqStr role "user") then ret userQuery else
  let! content := lift (Js.get message "content") in
  match content with
  | VArr parts => forOf parts user_part userQuery
  | _ => ret (userQuery +:+ Js.toString content +:+ LF)
  end.

(** *** Third step: the input variables *)

(** [config.X] is set: it holds a non-empty string. *)
Definition configured (o : option string) : bool := Js.truthy (field o).

(** [config.INPUT_VARIABLE || "text_input"] *)
Definition inputVariable (config : config) : string :=
  Js.toString (Js.or (field (INPUT_VARIABLE config)) (VStr "text_input")).

(** Both strings are already trimmed. *)
Definition set_inputs (config : config) (systemPrompt userQuery : string)
    (inputs : gmap string jsval) : gmap string jsval :=
  let inputs1 :=
    if configured (SYSTEM_INPUT_VARIABLE config) && Js.truthy (VStr systemPrompt)
    then <[Js.toString (field (SYSTEM_INPUT_VARIABLE config)) := VStr systemPrompt]> inputs
    else inputs in
  let inputs2 := <[inputVariable config := VStr userQuery]> inputs1 in
  if negb (configured (SYSTEM_INPUT_VARIABLE config)) && Js.truthy (VStr systemPrompt)
  then <[inputVariable config := VStr (systemPrompt +:+ LFLF +:+ userQuery)]> inputs2
  else inputs2.

(** [config.USER || data.user || "apiuser"] *)
Definition userId_of (config : config) (data_user : jsval) : jsval :=
  Js.or (Js.or (field (USER config)) data_user) (VStr "apiuser").

(** *** The response translator *)

(** [result] of a [workflow_finished] frame or of a JSON reply. *)
Definition select_output (config : config) (outputs : jsval) : outcome jsval :=
  if configured (OUTPUT_VARIABLE config)
  then Js.get outputs (Js.toString (field (OUTPUT_VARIABLE config)))
  else Ok outputs.

Definition DONE : string := "data: [DONE]" +:+ LFLF.

(** The chunk a [workflow_finished] frame is translated to. *)
Definition completion_chunk (model created result : jsval) : jsval :=
  VObj [("id", VStr ("chatcmpl-" +:+ Js.decimal Date_now));
        ("object", VStr "chat.completion.chunk");
        ("created", created);
        ("model", model);
        ("choices", VArr [VObj [("index", VNum 0);
                                ("delta", VObj [("content", result)]);
                                ("finish_reason", VStr "stop")]])].

(** The [if]/[else if] chain on [chunkObj.event] of the streaming path.
    Of the variables of the listener it reads and sets [isResponseEnded]
    only, which is what it takes and returns. *)
Definition dispatch (data : jsval) (config : config)
    (isResponseEnded : bool) (chunkObj : jsval) : M bool :=
  let! event := lift (Js.get chunkObj "event") in
  if Js.eqStr event "workflow_started" then ret isResponseEnded
  else if Js.eqStr event "node_started" then ret isResponseEnded
  else if Js.eqStr event "node_finished" then ret isResponseEnded
  else if Js.eqStr event "workflow_finished" then
    let! chunk_data := lift (Js.get chunkObj "data") in
    let! outputs := lift (Js.get chunk_data "outputs") in
    let! result := lift (select_output config outputs) in
    let! chunkCreated := lift (Js.get chunkObj "created_at") in
    if negb isResponseEnded then
      let! model := lift (Js.get data "model") in
      res_do (ResWrite ("data: "
                        +:+ Js.stringify (completion_chunk model chunkCreated result)
                        +:+ LFLF));;
      res_do (ResWrite DONE);;
      res_do ResEnd;;
      ret true
    else ret isResponseEnded
  else if Js.eqStr event "ping" then ret isResponseEnded
  else if Js.eqStr event "error" then
    let! message := lift (Js.get chunkObj "message") in
    res_do (ResStatus 500);;
    res_do (ResWrite ("data: " +:+ Js.stringify (VObj [("error", message)]) +:+ LFLF));;
    (if negb isResponseEnded then res_do (ResWrite DONE) else ret tt);;
    res_do ResEnd;;
    ret true
  else ret isResponseEnded.

(** One turn of the loop over the complete lines. *)
Definition on_line (data : jsval) (config : config)
    (isResponseEnded : bool) (raw : string) : M bool :=
  let line := trim raw in
  if negb (startsWith line "data:") then ret isResponseEnded else
  let line := trim (slice 5 line) in
  if negb (startsWith line "{") then ret isResponseEnded else
  match JSON_parse line with
  | None => ret isResponseEnded
  | Some chunkObj => dispatch data config isResponseEnded chunkObj
  end.

(** The ["data"] listener of the streaming path, after
    [chunk.toString()]. *)
Definition on_text (data : jsval) (config : config)
    (st : stream_state) (chunkText : string) : M stream_state :=
  let buffer' := buffer st +:+ chunkText in
  let lines := split nl buffer' in
  let! ended := forOf (removelast lines) (on_line data config) (isResponseEnded st) in
  ret {| buffer := List.last lines ""; isResponseEnded := ended |}.

(** The ["data"] listener of the streaming path. *)
Definition on_data (data : jsval) (config : config)
    (st : stream_state) (chunk : list byte) : M stream_state :=
  on_text data config st (Buffer.toString chunk).

Definition listening_start : stream_state :=
  {| buffer := ""; isResponseEnded := false |}.

(** The body is delivered chunk by chunk; an exception that leaves a
    listener is caught by nobody, and the run ends there. *)
Definition stream (data : jsval) (config : config) (chunks : list (list byte))
  : M stream_state :=
  forOf chunks (on_data data config) listening_start.

(** The document of the blocking path. *)
Definition completion (model result usageData : jsval) : jsval :=
  VObj [("id", VStr ("chatcmpl-" +:+ generateId tt));
        ("object", VStr "chat.completion");
        ("created", VNum (Date_now / 1000));
        ("model", model);
        ("choices", VArr [VObj [("index", VNum 0);
                                ("message", VObj [("role", VStr "assistant");
                                                  ("content", result)]);
                                ("logprobs", VNull);
                                ("finish_reason", VStr "stop")]]);
        ("usage", usageData);
        ("system_fingerprint", VStr "fp_2f57f81c11")].

(** [{ total_tokens: d.total_tokens || 110 }] *)
Definition usage_of (d : jsval) : outcome jsval :=
  match Js.get d "total_tokens" with
  | Ok t => Ok (VObj [("total_tokens", Js.or t (VNum 110))])
  | Throw e => Throw e
  end.

(** The blocking path on a reply whose content type is JSON. *)
Definition json_reply (data : jsval) (config : config) (r : response) : M unit :=
  let! jsonData := lift (json r) in
  let! d := lift (Js.get jsonData "data") in
  let! outputs := (if Js.truthy d then lift (Js.get d "outputs") else ret d) in
  let! extracted :=
    (if Js.truthy d && Js.truthy outputs then
       let! result := lift (select_output config outputs) in
       let! usageData := lift (usage_of d) in
       ret (result, usageData)
     else ret (VStr "", VStr "")) in
  let! model := lift (Js.get data "model") in
  res_do (ResSetHeader "Content-Type" "application/json");;
  res_do (ResJson (completion model (fst extracted) (snd extracted))).

(** One turn of the loop of the collecting path; the flag tells a
    [break]. *)
Definition collect_line (config : config) (st : collect_state) (raw : string)
  : M (collect_state * bool) :=
  let line := trim raw in
  if String.eqb line "" then ret (st, false) else
  let cleanedLine :=
    trim (if startsWith line "data: " then slice 6 line else line) in
  if negb (startsWith cleanedLine "{" && endsWith cleanedLine "}") then ret (st, false) else
  match JSON_parse cleanedLine with
  | None => ret (st, false)
  | Some chunkObj =>
      let! event := lift (Js.get chunkObj "event") in
      if Js.eqStr event "workflow_finished" then
        let! chunk_data := lift (Js.get chunkObj "data") in
        let! outputs := lift (Js.get chunk_data "outputs") in
        let! result := lift (select_output config outputs) in
        let! usageData := lift (usage_of chunk_data) in
        ret ({| c_result := result; c_usageData := usageData;
                c_buffer := c_buffer st; c_hasError := c_hasError st |}, false)
      else if Js.eqStr event "ping" then ret (st, false)
      else if Js.eqStr event "error" then
        ret ({| c_result := c_result st; c_usageData := c_usageData st;
                c_buffer := c_buffer st; c_hasError := true |}, true)
      else ret (st, false)
  end.

(** A [for] loop that a [break] can leave. *)
Fixpoint forBreak {A S} (xs : list A) (body : S -> A -> M (S * bool)) (s : S) : M S :=
  match xs with
  | [] => ret s
  | x :: xs' =>
      let! r := body s x in
      if snd r then ret (fst r) else forBreak xs' body (fst r)
  end.

(** The ["data"] listener of the collecting path. *)
Definition collect_data (config : config) (st : collect_state) (chunk : list byte)
  : M collect_state :=
  let buffer' := c_buffer st +:+ Buffer.toString chunk in
  let lines := split nl buffer' in
  let! st' := forBreak (removelast lines) (collect_line config)
                       {| c_result := c_result st; c_usageData := c_usageData st;
                          c_buffer := buffer'; c_hasError := c_hasError st |} in
  ret {| c_result := c_result st'; c_usageData := c_usageData st';
         c_buffer := List.last lines ""; c_hasError := c_hasError st' |}.

(** The ["end"] listener of the collecting path. *)
Definition collect_end (data : jsval) (st : collect_state) : M unit :=
  if c_hasError st then
    res_do (ResStatus 500);;
    res_do (ResJson (VObj [("error", VStr "An error occurred while processing the request.")]))
  else
    let! model := lift (Js.get data "model") in
    let jsonResponse :=
      Js.stringify2 "" (completion model (c_result st) (c_usageData st)) in
    res_do (ResSetHeader "Content-Type" "application/json");;
    res_do (ResSend jsonResponse).

Definition collect (data : jsval) (config : config) (chunks : list (list byte))
  : M unit :=
  let! st := forOf chunks (collect_data config)
                   {| c_result := VStr ""; c_usageData := VStr "";
                      c_buffer := ""; c_hasError := false |} in
  collect_end data st.

(** *** handleRequest *)

Definition workflows_run (config : config) (requestBody : request_body) : http_call :=
  PostWorkflowsRun (DIFY_API_URL config +:+ "/workflows/run")
                   ("Bearer " +:+ API_KEY config) requestBody.

(** Everything up to the request body: the three passes over the
    messages and the input variables. *)
Definition prepare (data : jsval) (config : config) : M (request_body * jsval) :=
  let! messages := lift (Js.get data "messages") in
  let inputs : gmap string jsval := ∅ in
  let files : list jsval := [] in
  let! data_user := lift (Js.get data "user") in
  let userId := userId_of config data_user in
  let! _ := lift (Js.get messages "length") in
  let! msgs := lift (iterate messages) in
  let! inputs := forOf msgs (scan_message config userId) inputs in
  let! systemPrompt := forOf msgs system_message "" in
  let! userQuery := forOf msgs user_message "" in
  let userQuery := trim userQuery in
  let systemPrompt := trim systemPrompt in
  let userQuery := trim userQuery in
  let inputs := set_inputs config systemPrompt userQuery inputs in
  let! data_stream := lift (Js.get data "stream") in
  let stream := if Js.isUndefined data_stream then VBool false else data_stream in
  ret ({| body_inputs := inputs;
          body_response_mode := if Js.truthy stream then "streaming" else "blocking";
          body_user := userId;
          body_files := files |}, stream).

(** What follows the backend's answer. *)
Definition respond (data : jsval) (config : config) (stream : jsval)
    (r : response) : M listening :=
  if negb (ok r) then
    let errorBody := text r in
    res_do (ResStatus (status r));;
    res_do (ResSend errorBody);;
    ret Finished
  else if Js.truthy stream then
    res_do (ResSetHeader "Content-Type" "text/event-stream");;
    ret (OnStream r)
  else if Js.truthy (field (content_type r))
          && includes (Js.toString (field (content_type r))) "application/json" then
    json_reply data config r;;
    ret Finished
  else ret (OnCollect r).

Definition handleRequest (data : jsval) (config : config) : M listening :=
  try_catch
    (let! prepared := prepare data config in
     let! r := fetch (workflows_run config (fst prepared)) in
     respond data config (snd prepared) r)
    (fun error =>
       res_do (ResStatus 500);;
       res_do (ResJson (VObj [("error", VStr (Js.message error))]));;
       ret Finished).

(** A request from its arrival to the last event of the backend's
    response. *)
Definition serve (data : jsval) (config : config) : M unit :=
  let! l := handleRequest data config in
  match l with
  | Finished => ret tt
  | OnStream r => stream data config (body r);; ret tt
  | OnCollect r => collect data config (body r)
  end.

End WorkflowHandler.

(** ** A reader of JSON texts

    [JSON.parse] is a parameter of the handler. To run the handler on
    concrete streams it is instantiated with this reader, which accepts the
    JSON texts whose numbers are integers and whose strings have no [\u]
    escape, and gives them the value [JSON.parse] gives. *)

Module JsonText.

(** A text written with ' for the double quote. *)
Fixpoint quoted (s : string) : string :=
  match s with
  | String a s' => String (if Ascii.eqb a "'" then dq else a) (quoted s')
  | EmptyString => EmptyString
  end.

Definition is_ws (a : ascii) : bool :=
  match a with
  | " " | "009" | "010" | "013" => true
  | _ => false
  end%char.

Fixpoint skip (s : string) : string :=
  match s with
  | String a s' => if is_ws a then skip s' else s
  | EmptyString => s
  end.

Definition unescape (e : ascii) : option ascii :=
  match e with
  | "034" => Some dq
  | "\" => Some "\"
  | "/" => Some "/"
  | "b" => Some "008"
  | "f" => Some "012"
  | "n" => Some "010"
  | "r" => Some "013"
  | "t" => Some "009"
  | _ => None
  end%char.

(** What follows an opening quote: the string and the text after its
    closing quote. *)
Fixpoint string_body (s : string) : option (string * string) :=
  match s with
  | EmptyString => None
  | String a rest =>
      if Ascii.eqb a dq then Some ("", rest)
      else if Ascii.eqb a "\" then
        match rest with
        | String e rest' =>
            match unescape e, string_body rest' with
            | Some c, Some (t, r) => Some (String c t, r)
            | _, _ => None
            end
        | EmptyString => None
        end
      else if (nat_of_ascii a <? 32)%nat then None
      else match string_body rest with
           | Some (t, r) => Some (String a t, r)
           | None => None
           end
  end.

Definition digit (a : ascii) : option Z :=
  let n := nat_of_ascii a in
  if ((48 <=? n) && (n <=? 57))%nat then Some (Z.of_nat (n - 48)) else None.

Fixpoint digits (acc : Z) (s : string) : Z * string :=
  match s with
  | String a s' =>
      match digit a with
      | Some d => digits (10 * acc + d) s'
      | None => (acc, s)
      end
  | EmptyString => (acc, s)
  end.

(** An integer: no leading zero, no fraction, no exponent. *)
Definition natural (s : string) : option (Z * string) :=
  match s with
  | String a s' =>
      match digit a with
      | Some d =>
          let (n, r) := if Z.eqb d 0 then (0, s') else digits d s' in
          match r with
          | String b _ =>
              match digit b with
              | Some _ => None
              | None => if Ascii.eqb b "." || Ascii.eqb b "e" || Ascii.eqb b "E"
                        then None else Some (n, r)
              end
          | EmptyString => Some (n, r)
          end
      | None => None
      end
  | EmptyString => None
  end.

(** [obj[k] = v] while an object literal is read: a key met again keeps
    its place and takes the new value. *)
Fixpoint define (k : string) (v : jsval) (fields : list (string * jsval))
  : list (string * jsval) :=
  match fields with
  | [] => [(k, v)]
  | (k', v') :: rest =>
      if String.eqb k k' then (k, v) :: rest else (k', v') :: define k v rest
  end.

Definition object (fields : list (string * jsval)) : jsval :=
  VObj (fold_left (fun acc kv => define (fst kv) (snd kv) acc) fields []).

Fixpoint value (fuel : nat) (s : string) : option (jsval * string) :=
  match fuel with
  | O => None
  | S fuel' =>
      match skip s with
      | String a rest =>
          if Ascii.eqb a "{" then
            match skip rest with
            | String b r => if Ascii.eqb b "}" then Some (VObj [], r)
                            else option_map (fun '(fs, r') => (object fs, r'))
                                            (members fuel' rest)
            | EmptyString => None
            end
          else if Ascii.eqb a "[" then
            match skip rest with
            | String b r => if Ascii.eqb b "]" then Some (VArr [], r)
                            else option_map (fun '(vs, r') => (VArr vs, r'))
                                            (elements fuel' rest)
            | EmptyString => None
            end
          else if Ascii.eqb a dq then
            option_map (fun '(t, r) => (VStr t, r)) (string_body rest)
          else if Ascii.eqb a "-" then
            option_map (fun '(n, r) => (VNum (- n), r)) (natural rest)
          else if startsWith (String a rest) "true" then Some (VBool true, slice 4 (String a rest))
          else if startsWith (String a rest) "false" then Some (VBool false, slice 5 (String a rest))
          else if startsWith (String a rest) "null" then Some (VNull, slice 4 (String a rest))
          else option_map (fun '(n, r) => (VNum n, r)) (natural (String a rest))
      | EmptyString => None
      end
  end
with elements (fuel : nat) (s : string) : option (list jsval * string) :=
  match fuel with
  | O => None
  | S fuel' =>
      match value fuel' s with
      | Some (v, r) =>
          match skip r with
          | String a r' =>
              if Ascii.eqb a "," then
                option_map (fun '(vs, r'') => (v :: vs, r'')) (elements fuel' r')
              else if Ascii.eqb a "]" then Some ([v], r')
              else None
          | EmptyString => None
          end
      | None => None
      end
  end
with members (fuel : nat) (s : string) : option (list (string * jsval) * string) :=
  match fuel with
  | O => None
  | S fuel' =>
      match skip s with
      | String q r =>
          if Ascii.eqb q dq then
            match string_body r with
            | Some (k, r1) =>
                match skip r1 with
                | String c r2 =>
                    if Ascii.eqb c ":" then
                      match value fuel' r2 with
                      | Some (v, r3) =>
                          match skip r3 with
                          | String a r4 =>
                              if Ascii.eqb a "," then
                                option_map (fun '(fs, r5) => ((k, v) :: fs, r5))
                                           (members fuel' r4)
                              else if Ascii.eqb a "}" then Some ([(k, v)], r4)
                              else None
                          | EmptyString => None
                          end
                      | None => None
                      end
                    else None
                | EmptyString => None
                end
            | None => None
            end
          else None
      | EmptyString => None
      end
  end.

Definition parse (s : string) : option jsval :=
  match value (2 * String.length s + 2) s with
  | Some (v, r) => if String.eqb (skip r) "" then Some v else None
  | None => None
  end.

End JsonText.

(** ** Reading the model *)

(** Total versions of property access, for statements: [undefined] where
    the access throws. *)
Definition prop (v : jsval) (k : string) : jsval :=
  match Js.get v k with
  | Ok x => x
  | Throw _ => VUndef
  end.

(** [v[i]] on an array. *)
Definition item (v : jsval) (i : nat) : jsval :=
  match v with
  | VArr items => nth i items VUndef
  | _ => VUndef
  end.

(** The [user] a request to the backend carries. *)
Definition call_user (c : http_call) : jsval :=
  match c with
  | PostFilesUpload _ _ form => form_user form
  | PostWorkflowsRun _ _ body => body_user body
  end.

(** The top-level [files] of a workflow call is empty. *)
Definition files_empty (c : http_call) : Prop :=
  match c with
  | PostFilesUpload _ _ _ => True
  | PostWorkflowsRun _ _ body => body_files body = []
  end.

(** A partial-correctness triple: [m] keeps the invariant [P] of the world,
    also when it throws, and a value it returns satisfies [R]. *)
Definition hoare {A} (P : world -> Prop) (m : M A) (R : A -> Prop) : Prop :=
  forall w, P w ->
    P (snd (m w)) /\ match fst (m w) with Ok a => R a | Throw _ => True end.

(** The invariant does not depend on what was done to [res]. *)
Definition res_blind (P : world -> Prop) : Prop :=
  forall w op, P w -> P {| calls := calls w; res := res w ++ [op] |}.

(** [config.SYSTEM_INPUT_VARIABLE], as the key it is used as. *)
Definition systemVariable (config : config) : string :=
  Js.toString (field (SYSTEM_INPUT_VARIABLE config)).

(** A line the streaming path passes over: no [data:] prefix, a payload
    that does not begin with a brace, or one that [JSON.parse] rejects. *)
Definition passed_over (JSON_parse : string -> option jsval) (raw : string) : bool :=
  let line := trim raw in
  let payload := trim (slice 5 line) in
  negb (startsWith line "data:")
  || negb (startsWith payload "{")
  || match JSON_parse payload with None => true | Some _ => false end.

(** [doc.choices[0].message.content] and [doc.usage.total_tokens] of a
    chat response. *)
Definition content_of (doc : jsval) : jsval :=
  prop (prop (item (prop doc "choices") 0) "message") "content".

Definition total_tokens_of (doc : jsval) : jsval :=
  prop (prop doc "usage") "total_tokens".

(** A frame of a server-sent event stream was written to [res]. *)
Definition sse_frame_written (w : world) : Prop :=
  exists payload, In (ResWrite ("data: " +:+ payload +:+ LFLF)) (res w).

(** The [response_mode] of the workflow calls made so far. *)
Definition response_modes (w : world) : list string :=
  flat_map (fun c => match c with
                     | PostWorkflowsRun _ _ body => [body_response_mode body]
                     | PostFilesUpload _ _ _ => []
                     end) (calls w).

(** The shape [data:<mime>;base64,<payload>], neither part empty. *)
Definition data_uri_shape (s : string) : Prop :=
  exists mime payload,
    mime <> "" /\ payload <> ""
    /\ s = "data:" +:+ mime +:+ ";base64," +:+ payload.

(** No line terminator anywhere in the string. *)
Definition single_line (s : string) : Prop :=
  DataUri.has_line_terminator s = false.

(** What stands between the first [/] of a content type and the next one,
    or its end; the text [undefined] when it has no [/]. *)
Definition extension_of (contentType : string) : string :=
  match split "/" contentType with
  | _ :: extension :: _ => extension
  | _ => "undefined"
  end.

(** *** The images of a request, as the specification tells them *)

(** The url of a content part of type [image_url] that carries one. *)
Definition image_url_of (content : jsval) : option jsval :=
  if Js.eqStr (prop content "type") "image_url"
     && Js.truthy (prop content "image_url")
     && Js.truthy (prop (prop content "image_url") "url")
  then Some (prop (prop content "image_url") "url")
  else None.

(** A content part of the data model: a value other than [undefined] and
    [null] whose image url, if it has one, is a string. *)
Definition part_ok (content : jsval) : bool :=
  match content with
  | VUndef | VNull => false
  | _ => match image_url_of content with
         | Some (VStr _) | None => true
         | Some _ => false
         end
  end.

Definition message_ok (message : jsval) : bool :=
  match message with
  | VUndef | VNull => false
  | _ => match prop message "content" with
         | VArr parts => forallb part_ok parts
         | _ => true
         end
  end.

Definition part_urls (parts : list jsval) : list string :=
  flat_map (fun content => match image_url_of content with
                           | Some (VStr url) => [url]
                           | _ => []
                           end) parts.

(** The image urls of the messages whose content is an array, in the order
    of the source. *)
Definition image_urls (messages : list jsval) : list string :=
  flat_map (fun message => match prop message "content" with
                           | VArr parts => part_urls parts
                           | _ => []
                           end) messages.

Definition local_file (fileId type : jsval) : jsval :=
  VObj [("transfer_method", VStr "local_file"); ("upload_file_id", fileId); ("type", type)].

Definition remote_url (url : string) (type : jsval) : jsval :=
  VObj [("transfer_method", VStr "remote_url"); ("url", VStr url); ("type", type)].

(** [inputs] with nothing but the files: no key when there is none, else
    the array under ["file_input"]. *)
Definition inputs_of (files : list jsval) : gmap string jsval :=
  match files with
  | [] => ∅
  | _ => {["file_input" := VArr files]}
  end.

(** An upload. *)
Definition is_upload (c : http_call) : Prop :=
  match c with
  | PostFilesUpload _ _ _ => True
  | PostWorkflowsRun _ _ _ => False
  end.

Section ImageScan.

Context (JSON_parse : string -> option jsval)
        (Buffer_from_base64 : string -> list byte)
        (getFileExtension : string -> jsval)
        (getFileType : jsval -> jsval)
        (backend : list http_call -> http_call -> outcome response)
        (config : config) (userId : jsval).

(** One url after the other: a [data:] url is handed to the uploader, once,
    and gives a [local_file] input with the id the uploader returns; any
    other url gives a [remote_url] input and the uploader is not called. The
    inputs are appended in this order. *)
Fixpoint file_inputs (urls : list string) (files : list jsval) : M (list jsval) :=
  match urls with
  | [] => ret files
  | url :: rest =>
      let type := getFileType (getFileExtension url) in
      if startsWith url "data:" then
        let! fileId := uploadFileToDify JSON_parse Buffer_from_base64 backend
                                        url config userId in
        file_inputs rest (files ++ [local_file fileId type])
      else
        file_inputs rest (files ++ [remote_url url type])
  end.

(** The input one url gave, for an upload that returned. *)
Definition file_input_for (url : string) (fileInput : jsval) : Prop :=
  let type := getFileType (getFileExtension url) in
  if startsWith url "data:"
  then exists fileId, fileInput = local_file fileId type
  else fileInput = remote_url url type.

End ImageScan.

(** *** The lines of a text *)

(** The complete lines of a text, and what follows its last line feed. *)
Definition complete (s : string) : list string := removelast (split nl s).
Definition partial (s : string) : string := List.last (split nl s) "".

(** The texts one after the other. *)
Definition join_texts (texts : list string) : string :=
  fold_right String.append "" texts.

(** The sentinel that ends a stream, and how often it was written. *)
Definition is_done (op : res_op) : bool :=
  match op with
  | ResWrite data => String.eqb data DONE
  | _ => false
  end.

Definition sentinels (ops : list res_op) : nat := List.length (List.filter is_done ops).

(** The flag tells whether the sentinel was written. *)
Definition latch (ended : bool) (w : world) : Prop :=
  sentinels (res w) = if ended then 1%nat else 0%nat.

(** What a step of the streaming path keeps: the flag tells whether the
    sentinel was written, also when the step throws. *)
Definition keeps_latch (ended : bool) (r : outcome bool * world) : Prop :=
  match r with
  | (Ok ended', w') => latch ended' w'
  | (Throw _, w') => latch ended w'
  end.

(** Something is written to [res] after it was ended. *)
Definition writes_after_end (ops : list res_op) : Prop :=
  exists before after data,
    ops = before ++ ResEnd :: after /\ In (ResWrite data) after.

(** *** The texts of a request *)

(** A value other than [undefined] and [null]. *)
Definition present (v : jsval) : bool :=
  match v with
  | VUndef | VNull => false
  | _ => true
  end.

(** What a content part adds to a prompt: a string itself, the [text] of a
    part of type [text] when it is a string; each followed by a line feed. *)
Definition part_text (content : jsval) : string :=
  match content with
  | VStr s => s +:+ LF
  | _ => if Js.eqStr (prop content "type") "text"
         then match prop content "text" with
              | VStr t => t +:+ LF
              | _ => ""
              end
         else ""
  end.

(** What a message adds to the prompt made of the messages of [role]: the
    texts of its parts when its content is an array, else its content as a
    string and a line feed. *)
Definition message_text (role : string) (message : jsval) : string :=
  if Js.eqStr (prop message "role") role then
    match prop message "content" with
    | VArr parts => join_texts (List.map part_text parts)
    | content => Js.toString content +:+ LF
    end
  else "".

Definition texts (role : string) (messages : list jsval) : string :=
  join_texts (List.map (message_text role) messages).

(** A content part that is a string, or a value other than [undefined] and
    [null] whose [text], when its type is [text], is a string. *)
Definition part_typed (content : jsval) : bool :=
  match content with
  | VStr _ => true
  | VUndef | VNull => false
  | _ => negb (Js.eqStr (prop content "type") "text") || Js.isString (prop content "text")
  end.

Definition message_typed (message : jsval) : bool :=
  present message
  && match prop message "content" with
     | VArr parts => forallb part_typed parts
     | _ => true
     end.

(** *** What is done to [res] *)

(** The answer of the [catch] of [handleRequest]. *)
Definition failure (e : error) : list res_op :=
  [ResStatus 500; ResJson (VObj [("error", VStr (Js.message e))])].

(** The answer of the collecting path after an [error] frame. *)
Definition collect_failure : list res_op :=
  [ResStatus 500;
   ResJson (VObj [("error", VStr "An error occurred while processing the request.")])].

(** Nothing was done to [res] since [w0], or what was done ends with
    [res.end()]; the flag tells which. *)
Definition silent_or_ended (w0 : world) (ended : bool) (w : world) : Prop :=
  if ended then exists ops, res w = res w0 ++ ops ++ [ResEnd] else res w = res w0.

(** The variables of the collecting path before the first chunk. *)
Definition collecting_start : collect_state :=
  {| c_result := VStr ""; c_usageData := VStr ""; c_buffer := ""; c_hasError := false |}.

(** ** Concrete runs

    A configuration, a backend and stand-ins for the helpers of utils.js, to
    run the handler on concrete requests. *)

Module Scenario.

Definition settings (system input output : option string) : config :=
  {| DIFY_API_URL := "https://dify.example/v1";
     API_KEY := "app-key";
     USER := None;
     SYSTEM_INPUT_VARIABLE := system;
     INPUT_VARIABLE := input;
     OUTPUT_VARIABLE := output |}.

Definition utf8 (s : string) : list byte := list_byte_of_string s.

(** The bytes of a text written with ' for the double quote. *)
Definition bytes (s : string) : list byte := utf8 (JsonText.quoted s).

(** The same, ended by a line feed. *)
Definition line (s : string) : list byte := utf8 (JsonText.quoted s +:+ LF).

Definition reply (code : Z) (type : option string) (chunks : list (list byte)) : response :=
  {| status := code; statusText := ""; content_type := type; body := chunks |}.

(** A backend that stores every file as [file-1] and answers the workflow
    call with [r]. *)
Definition backend (r : response) : list http_call -> http_call -> outcome response :=
  fun _ c =>
    match c with
    | PostFilesUpload _ _ _ =>
        Ok (reply 201 (Some "application/json") [bytes "{'id': 'file-1'}"])
    | PostWorkflowsRun _ _ _ => Ok r
    end.

Definition run (r : response) (data : jsval) (config : config) : outcome unit * world :=
  serve JsonText.parse (fun _ => []) 1700000000000
        (fun _ => VStr "png") (fun _ => VStr "image") (fun _ => "abc")
        (backend r) data config start.

(** A JSON answer of the workflow call: [outputs.answer] is ["hi"]. *)
Definition answer (total_tokens : string) : response :=
  reply 200 (Some "application/json; charset=utf-8")
        [bytes ("{'data': {'outputs': {'answer': 'hi'}, 'total_tokens': "
                +:+ total_tokens +:+ "}}")].

Definition answer_json (total_tokens : Z) : jsval :=
  VObj [("data", VObj [("outputs", VObj [("answer", VStr "hi")]);
                       ("total_tokens", VNum total_tokens)])].

(** The two frames that end a stream. *)
Definition finished_open : string :=
  "data: {'event': 'workflow_finished', 'created_at': 5, 'data': {'outputs': {'answer': '".

Definition finished_close : string := "'}}}".

Definition finished (answer : string) : string :=
  finished_open +:+ answer +:+ finished_close.

Definition failed : string := "data: {'event': 'error', 'code': 'E1', 'message': 'boom'}".

(** A [workflow_finished] frame whose answer is the word caf followed by
    U+00E9 (C3 A9), cut between the two bytes of that character. *)
Definition cafe_head : list byte := bytes (finished_open +:+ "caf") ++ [xc3].
Definition cafe_tail : list byte := [xa9] ++ line finished_close.

(** The chunk the handler writes for the answer [content]. *)
Definition chunk_for (content : string) : string :=
  JsonText.quoted "data: {'id':'chatcmpl-1700000000000','object':'chat.completion.chunk','created':5,'model':'dify','choices':[{'index':0,'delta':{'content':'"
  +:+ content +:+ JsonText.quoted "'},'finish_reason':'stop'}]}" +:+ LFLF.

Definition words (t : string) : jsval :=
  VObj [("type", VStr "text"); ("text", VStr t)].

Definition image (url : string) : jsval :=
  VObj [("type", VStr "image_url"); ("image_url", VObj [("url", VStr url)])].

(** One user message with a text and two images, the first inline. *)
Definition album : list jsval :=
  [VObj [("role", VStr "user");
         ("content", VArr [words "compare these";
                           image "data:image/jpg;base64,AAAA";
                           image "https://cdn.example/cat.png"])]].

(** A chat request with these messages. *)
Definition pictures (stream : bool) : jsval :=
  VObj [("model", VStr "dify"); ("stream", VBool stream); ("messages", VArr album)].

(** A chat request with one user message. *)
Definition ask (stream : bool) (content : jsval) : jsval :=
  VObj [("model", VStr "dify");
        ("stream", VBool stream);
        ("messages", VArr [VObj [("role", VStr "user"); ("content", content)]])].

End Scenario.

(** More surroundings: backends that fail, and requests that meet them. *)

Module Cases.

(** [handleRequest] and its first part on a fresh request. *)
Definition handle (backend : list http_call -> http_call -> outcome response)
    (data : jsval) (config : config) : outcome listening * world :=
  handleRequest JsonText.parse (fun _ => []) 1700000000000
                (fun _ => VStr "png") (fun _ => VStr "image") (fun _ => "abc")
                backend data config start.

Definition prepared (backend : list http_call -> http_call -> outcome response)
    (data : jsval) (config : config) : outcome (request_body * jsval) * world :=
  prepare JsonText.parse (fun _ => []) (fun _ => VStr "png") (fun _ => VStr "image")
          backend data config start.

Definition upload (backend : list http_call -> http_call -> outcome response)
    (base64Data : string) : outcome jsval * world :=
  uploadFileToDify JsonText.parse (fun _ => []) backend base64Data
                   (Scenario.settings None None None) (VStr "apiuser") start.

(** A backend that cannot be reached. *)
Definition unreachable : list http_call -> http_call -> outcome response :=
  fun _ _ => Throw (FetchError "connect ECONNREFUSED").

(** The answer of a backend that takes no file. *)
Definition too_large : response :=
  {| status := 413; statusText := "Payload Too Large";
     content_type := Some "text/plain"; body := [Scenario.utf8 "file too large"] |}.

Definition refusing : list http_call -> http_call -> outcome response :=
  fun _ c =>
    match c with
    | PostFilesUpload _ _ _ => Ok too_large
    | PostWorkflowsRun _ _ _ => Ok (Scenario.answer "1")
    end.

(** The answer every upload gets from [Scenario.backend]. *)
Definition stored : response :=
  Scenario.reply 201 (Some "application/json") [Scenario.bytes "{'id': 'file-1'}"].

(** An inline image with no payload, and one with a payload. *)
Definition blank : string := "data:image/png;base64,".
Definition dot : string := "data:image/png;base64,AAAA".

(** An answer with a JSON content type whose body is no JSON text. *)
Definition garbled : response :=
  Scenario.reply 200 (Some "application/json") [Scenario.utf8 "upstream timed out"].

(** The JSON answer of a workflow that failed: no outputs. *)
Definition no_outputs : response :=
  Scenario.reply 200 (Some "application/json")
                 [Scenario.bytes "{'data': {'status': 'failed', 'outputs': null}}"].

(** A conversation: a system message, a user message in parts, an answer,
    and a second user message. *)
Definition talk : list jsval :=
  [VObj [("role", VStr "system"); ("content", VStr "Be brief.")];
   VObj [("role", VStr "user");
         ("content", VArr [Scenario.words "What is";
                           Scenario.image "https://cdn.example/cat.png";
                           VStr "this?"])];
   VObj [("role", VStr "assistant"); ("content", VStr "A cat.")];
   VObj [("role", VStr "user"); ("content", VStr "Sure?")]].

(** A [workflow_finished] frame of a workflow that failed. *)
Definition finished_empty : jsval :=
  VObj [("event", VStr "workflow_finished");
        ("created_at", VNum 5);
        ("data", VObj [("status", VStr "failed"); ("outputs", VNull)])].

(** A [ping] frame in two chunks cut inside the line, then the frame that
    ends the stream. *)
Definition pieces : list (list byte) :=
  [Scenario.bytes "data: {'event': "; Scenario.line "'ping'}";
   Scenario.line (Scenario.finished "hi")].

End Cases.

(** ** The monad and the triples *)

Section Triples.

Context (P : world -> Prop).

Lemma hoare_ret {A} (a : A) (R : A -> Prop) : R a -> hoare P (ret a) R.
Proof. intros HR w Hw. cbn. auto. Qed.

Lemma hoare_throw {A} (e : error) (R : A -> Prop) : hoare P (throw e) R.
Proof. intros w Hw. cbn. auto. Qed.

Lemma hoare_lift {A} (o : outcome A) (R : A -> Prop) :
  (forall a, o = Ok a -> R a) -> hoare P (lift o) R.
Proof. intros HR w Hw. destruct o; cbn; auto. Qed.

Lemma hoare_bind {A B} (m : M A) (k : A -> M B) (R1 : A -> Prop) (R : B -> Prop) :
  hoare P m R1 -> (forall a, R1 a -> hoare P (k a) R) -> hoare P (bind m k) R.
Proof.
  intros Hm Hk w Hw. unfold bind.
  destruct (Hm w Hw) as [HP HR]. destruct (m w) as [[a|e] w']; cbn in *.
  - exact (Hk a HR w' HP).
  - auto.
Qed.

Lemma hoare_weaken {A} (m : M A) (R1 R : A -> Prop) :
  hoare P m R1 -> (forall a, R1 a -> R a) -> hoare P m R.
Proof.
  intros Hm HR w Hw. destruct (Hm w Hw) as [HP H1]. split; [exact HP|].
  destruct (fst (m w)); auto.
Qed.

Lemma hoare_try_catch {A} (m : M A) (h : error -> M A) (R : A -> Prop) :
  hoare P m R -> (forall e, hoare P (h e) R) -> hoare P (try_catch m h) R.
Proof.
  intros Hm Hh w Hw. unfold try_catch.
  destruct (Hm w Hw) as [HP HR]. destruct (m w) as [[a|e] w']; cbn in *.
  - auto.
  - exact (Hh e w' HP).
Qed.

Lemma hoare_forOf {A S} (xs : list A) (body : S -> A -> M S) (I : S -> Prop) :
  (forall s x, I s -> hoare P (body s x) I) ->
  forall s, I s -> hoare P (forOf xs body s) I.
Proof.
  intros Hbody. induction xs as [|x xs IH]; intros s Hs; cbn [forOf].
  - by apply hoare_ret.
  - eapply hoare_bind; [by apply Hbody|]. intros s' Hs'. by apply IH.
Qed.

Lemma hoare_forBreak {A S} (xs : list A) (body : S -> A -> M (S * bool)) (I : S -> Prop) :
  (forall s x, I s -> hoare P (body s x) (fun r => I (fst r))) ->
  forall s, I s -> hoare P (forBreak xs body s) I.
Proof.
  intros Hbody. induction xs as [|x xs IH]; intros s Hs; cbn [forBreak].
  - by apply hoare_ret.
  - eapply hoare_bind; [by apply Hbody|]. intros [s' b] Hs'. cbn in *.
    destruct b; [by apply hoare_ret | by apply IH].
Qed.

Lemma hoare_res_do (op : res_op) (R : unit -> Prop) :
  res_blind P -> R tt -> hoare P (res_do op) R.
Proof. intros HP HR w Hw. cbn. split; [by apply HP | exact HR]. Qed.

End Triples.

(** One step of a proof that a computation keeps an invariant, whatever it
    returns. *)
Ltac keep_step :=
  lazymatch goal with
  | |- hoare _ (bind _ _) _ => eapply hoare_bind with (R1 := fun _ => True); [ | intros ? _ ]
  | |- hoare _ (ret _) _ => apply hoare_ret; exact I
  | |- hoare _ (throw _) _ => apply hoare_throw
  | |- hoare _ (lift _) _ => apply hoare_lift; intros; exact I
  | |- hoare _ (res_do _) _ => apply hoare_res_do; [assumption | exact I]
  | |- hoare _ (if ?b then _ else _) _ => destruct b
  | |- hoare _ (match ?x with _ => _ end) _ => destruct x
  | |- hoare _ (forOf _ _ _) _ =>
      apply hoare_forOf with (I := fun _ => True); [intros ? ? _ | exact I]
  | |- hoare _ (forBreak _ _ _) _ =>
      apply hoare_forBreak with (I := fun _ => True); [intros ? ? _ | exact I]
  end.

(** ** The requests sent to the backend *)

Section Calls.

Context (JSON_parse : string -> option jsval)
        (Buffer_from_base64 : string -> list byte)
        (Date_now : Z)
        (getFileExtension : string -> jsval)
        (getFileType : jsval -> jsval)
        (generateId : unit -> string)
        (backend : list http_call -> http_call -> outcome response).

Context (config : config) (userId : jsval).

(** A property [Q] of requests that holds of every upload made for [userId]
    and of every workflow call made for [userId] with no [files], and an
    invariant [P] of the world that sending such requests keeps. *)
Context (Q : http_call -> Prop) (P : world -> Prop).
Hypothesis Q_upload : forall url auth form,
  form_user form = userId -> Q (PostFilesUpload url auth form).
Hypothesis Q_run : forall url auth body,
  body_user body = userId -> body_files body = [] -> Q (PostWorkflowsRun url auth body).
Hypothesis P_call : forall w c,
  Q c -> P w -> P {| calls := calls w ++ [c]; res := res w |}.

Lemma hoare_fetch (c : http_call) :
  Q c -> hoare P (fetch backend c) (fun _ => True).
Proof.
  intros Hc w Hw. unfold fetch. cbn. split.
  - by apply P_call.
  - by destruct (backend (calls w) c).
Qed.

Lemma uploadFileToDify_keeps (base64Data : string) :
  hoare P (uploadFileToDify JSON_parse Buffer_from_base64 backend base64Data config userId)
        (fun _ => True).
Proof.
  unfold uploadFileToDify.
  destruct (DataUri.exec base64Data) as [[m b]|]; [|keep_step].
  eapply hoare_bind with (R1 := fun _ => True).
  - apply hoare_fetch. by apply Q_upload.
  - intros r _. repeat keep_step.
Qed.

Lemma scan_message_keeps (inputs : gmap string jsval) (message : jsval) :
  hoare P (scan_message JSON_parse Buffer_from_base64 getFileExtension getFileType
                        backend config userId inputs message)
        (fun _ => True).
Proof.
  unfold scan_message.
  repeat first [ apply uploadFileToDify_keeps | keep_step | progress unfold scan_part ].
Qed.

Lemma system_message_keeps (systemPrompt : string) (message : jsval) :
  hoare P (system_message systemPrompt message) (fun _ => True).
Proof.
  unfold system_message, system_part. repeat keep_step.
Qed.

Lemma user_message_keeps (userQuery : string) (message : jsval) :
  hoare P (user_message userQuery message) (fun _ => True).
Proof.
  unfold user_message, user_part. repeat keep_step.
Qed.

Lemma prepare_keeps (data : jsval) :
  userId = userId_of config (prop data "user") ->
  hoare P (prepare JSON_parse Buffer_from_base64 getFileExtension getFileType
                   backend data config)
        (fun prepared => body_user (fst prepared) = userId
                         /\ body_files (fst prepared) = []).
Proof.
  intros HuserId.
  unfold prepare. keep_step; [keep_step|].
  eapply hoare_bind with (R1 := fun a => Js.get data "user" = Ok a);
    [by apply hoare_lift|].
  intros data_user Huser.
  assert (userId_of config data_user = userId) as ->.
  { rewrite HuserId. unfold prop. by rewrite Huser. }
  keep_step; [keep_step|]. keep_step; [keep_step|].
  keep_step.
  { apply hoare_forOf with (I := fun _ => True); [|exact I].
    intros inputs message _. apply scan_message_keeps. }
  keep_step.
  { apply hoare_forOf with (I := fun _ => True); [|exact I].
    intros sp message _. apply system_message_keeps. }
  keep_step.
  { apply hoare_forOf with (I := fun _ => True); [|exact I].
    intros uq message _. apply user_message_keeps. }
  keep_step; [keep_step|].
  apply hoare_ret. by split.
Qed.

(** What follows the answer of the backend works on [res]. *)
Hypothesis Hblind : res_blind P.

Lemma respond_keeps (data stream : jsval) (r : response) :
  hoare P (respond JSON_parse Date_now generateId data config stream r) (fun _ => True).
Proof.
  unfold respond, json_reply. repeat keep_step.
Qed.

Lemma stream_keeps (data : jsval) (chunks : list (list byte)) :
  hoare P (stream JSON_parse Date_now data config chunks) (fun _ => True).
Proof.
  unfold stream, on_data, on_text.
  repeat first [ keep_step | progress unfold on_line, dispatch ].
Qed.

Lemma collect_keeps (data : jsval) (chunks : list (list byte)) :
  hoare P (collect JSON_parse Date_now generateId data config chunks) (fun _ => True).
Proof.
  unfold collect, collect_data, collect_end.
  repeat first [ keep_step | progress unfold collect_line ].
Qed.

Lemma serve_keeps (data : jsval) :
  userId = userId_of config (prop data "user") ->
  hoare P (serve JSON_parse Buffer_from_base64 Date_now getFileExtension getFileType
                 generateId backend data config)
        (fun _ => True).
Proof.
  intros HuserId.
  unfold serve, handleRequest.
  keep_step.
  - apply hoare_try_catch; [|intros e; repeat keep_step].
    eapply hoare_bind; [by apply prepare_keeps|].
    intros [requestBody stream] [Huser Hfiles]. cbn [fst snd] in *.
    keep_step; [|apply respond_keeps].
    apply hoare_fetch. by apply Q_run.
  - destruct a.
    + keep_step.
    + keep_step; [apply stream_keeps | keep_step].
    + apply collect_keeps.
Qed.

End Calls.

(** Every request sent while a request is served has [Q]. *)
Lemma serve_calls
    (JSON_parse : string -> option jsval) (Buffer_from_base64 : string -> list byte)
    (Date_now : Z) (getFileExtension : string -> jsval) (getFileType : jsval -> jsval)
    (generateId : unit -> string)
    (backend : list http_call -> http_call -> outcome response)
    (config : config) (userId : jsval) (Q : http_call -> Prop) (data : jsval) :
  (forall url auth form, form_user form = userId -> Q (PostFilesUpload url auth form)) ->
  (forall url auth body, body_user body = userId -> body_files body = [] ->
                         Q (PostWorkflowsRun url auth body)) ->
  userId = userId_of config (prop data "user") ->
  Forall Q (calls (snd (serve JSON_parse Buffer_from_base64 Date_now getFileExtension
                             getFileType generateId backend data config start))).
Proof.
  intros Hup Hrun HuserId.
  assert (forall w c, Q c -> Forall Q (calls w) ->
                      Forall Q (calls {| calls := calls w ++ [c]; res := res w |}))
    as Hcall.
  { intros w c Hc Hw. cbn. apply Forall_app. split; [exact Hw | by constructor]. }
  assert (res_blind (fun w => Forall Q (calls w))) as Hblind.
  { intros w op Hw. exact Hw. }
  destruct (serve_keeps JSON_parse Buffer_from_base64 Date_now getFileExtension
              getFileType generateId backend config userId Q
              (fun w => Forall Q (calls w)) Hup Hrun Hcall Hblind data HuserId start)
    as [H _]; [by constructor | exact H].
Qed.

(** C9. Whatever the request, also one with images, every call of
    /workflows/run made while it is served has the empty array as the [files]
    of its body: the files travel in [inputs], never in [files]. *)
Theorem workflow_call_files_empty
    (JSON_parse : string -> option jsval) (Buffer_from_base64 : string -> list byte)
    (Date_now : Z) (getFileExtension : string -> jsval) (getFileType : jsval -> jsval)
    (generateId : unit -> string)
    (backend : list http_call -> http_call -> outcome response)
    (data : jsval) (config : config) :
  Forall files_empty
    (calls (snd (serve JSON_parse Buffer_from_base64 Date_now getFileExtension
                       getFileType generateId backend data config start))).
Proof.
  by eapply serve_calls with (userId := userId_of config (prop data "user")).
Qed.

(** C10. The user identifier is [config.USER] when set, otherwise the
    [user] of the request body when set, otherwise ["apiuser"]; every upload
    and the workflow call of one request carry this same identifier. *)
Theorem user_identifier_precedence
    (JSON_parse : string -> option jsval) (Buffer_from_base64 : string -> list byte)
    (Date_now : Z) (getFileExtension : string -> jsval) (getFileType : jsval -> jsval)
    (generateId : unit -> string)
    (backend : list http_call -> http_call -> outcome response)
    (data : jsval) (config : config) :
  let userId := userId_of config (prop data "user") in
  userId = (if configured (USER config) then field (USER config)
            else if Js.truthy (prop data "user") then prop data "user"
            else VStr "apiuser")
  /\ Forall (fun c => call_user c = userId)
       (calls (snd (serve JSON_parse Buffer_from_base64 Date_now getFileExtension
                          getFileType generateId backend data config start))).
Proof.
  intros userId. split.
  - unfold userId, userId_of, Js.or, configured.
    destruct (Js.truthy (field (USER config))) eqn:HU; cbn.
    + by rewrite HU.
    + by destruct (Js.truthy (prop data "user")) eqn:HD; rewrite ?HD.
  - eapply serve_calls with (userId := userId); try done.
Qed.

(** ** The input variables *)

Lemma read_insert (inputs : gmap string jsval) (k k' : string) (v : jsval) :
  read (<[k' := v]> inputs) k = if String.eqb k k' then v else read inputs k.
Proof.
  unfold read. destruct (String.eqb_spec k k') as [->|Hne].
  - by rewrite lookup_insert_eq.
  - by rewrite lookup_insert_ne.
Qed.

(** X10. The file inputs of the image scan reach the request body: setting
    the input variables leaves [inputs["file_input"]] as the scan left it,
    unless [INPUT_VARIABLE] or [SYSTEM_INPUT_VARIABLE] is configured to be
    ["file_input"] itself. *)
Lemma set_inputs_keeps_files (config : config) (systemPrompt userQuery : string)
    (inputs : gmap string jsval) :
  inputVariable config <> "file_input" ->
  systemVariable config <> "file_input" ->
  read (set_inputs config systemPrompt userQuery inputs) "file_input"
  = read inputs "file_input".
Proof.
  intros Hinput Hsystem. unfold set_inputs. fold (systemVariable config).
  apply String.eqb_neq in Hinput, Hsystem. rewrite String.eqb_sym in Hinput, Hsystem.
  destruct (configured (SYSTEM_INPUT_VARIABLE config) && Js.truthy (VStr systemPrompt)),
           (negb (configured (SYSTEM_INPUT_VARIABLE config)) && Js.truthy (VStr systemPrompt));
    rewrite ?read_insert, ?Hinput, ?Hsystem; reflexivity.
Qed.

(** C2, as amended. Whatever was in [inputs], afterwards the input variable,
    [config.INPUT_VARIABLE] when set and ["text_input"] otherwise, holds the
    user query when [SYSTEM_INPUT_VARIABLE] is set, else the system prompt,
    two line feeds and the user query when the system prompt is not empty,
    else the user query; [SYSTEM_INPUT_VARIABLE], when set and other than the
    input variable, holds a system prompt that is not empty; every other key
    is as before. *)
Theorem set_inputs_reads (config : config) (systemPrompt userQuery : string)
    (inputs : gmap string jsval) (k : string) :
  let separate := configured (SYSTEM_INPUT_VARIABLE config) in
  let system := negb (String.eqb systemPrompt "") in
  inputVariable config
  = (if configured (INPUT_VARIABLE config)
     then Js.toString (field (INPUT_VARIABLE config)) else "text_input")
  /\ read (set_inputs config systemPrompt userQuery inputs) k
     = if String.eqb k (inputVariable config) then
         VStr (if separate then userQuery
               else if system then systemPrompt +:+ LFLF +:+ userQuery
               else userQuery)
       else if separate && system && String.eqb k (systemVariable config)
       then VStr systemPrompt
       else read inputs k.
Proof.
  cbn zeta. split.
  - unfold inputVariable, Js.or, configured.
    by destruct (Js.truthy (field (INPUT_VARIABLE config))).
  - unfold set_inputs, systemVariable. cbn [Js.truthy].
    destruct (configured (SYSTEM_INPUT_VARIABLE config)),
             (negb (String.eqb systemPrompt "")); cbn [andb negb];
      rewrite ?read_insert;
      destruct (String.eqb k (inputVariable config)); try reflexivity.
Qed.

(** C2, as stated, fails when both names are the same: with
    [SYSTEM_INPUT_VARIABLE] set to ["text_input"] and a system prompt that is
    not empty, [inputs["text_input"]] is the user query, not the system
    prompt. *)
Lemma system_variable_overwritten :
  let config := Scenario.settings (Some "text_input") None None in
  let inputs := set_inputs config "Be brief." "Hi" ∅ in
  configured (SYSTEM_INPUT_VARIABLE config) = true
  /\ read inputs (systemVariable config) = VStr "Hi"
  /\ read inputs (systemVariable config) <> VStr "Be brief.".
Proof. cbn zeta. split; [reflexivity|]. split; [reflexivity|]. discriminate. Qed.

(** ** The streaming path, line by line *)

Lemma forOf_app {A S} (xs ys : list A) (body : S -> A -> M S) (s : S) (w : world) :
  forOf (xs ++ ys) body s w = bind (forOf xs body s) (forOf ys body) w.
Proof.
  revert s w. induction xs as [|x xs IH]; intros s w; cbn [forOf app].
  - reflexivity.
  - unfold bind in *. destruct (body s x w) as [[s'|e] w']; [|reflexivity].
    apply IH.
Qed.

Lemma on_line_passed_over
    (JSON_parse : string -> option jsval) (Date_now : Z)
    (data : jsval) (config : config) (raw : string) (ended : bool) (w : world) :
  passed_over JSON_parse raw = true ->
  on_line JSON_parse Date_now data config ended raw w = (Ok ended, w).
Proof.
  unfold passed_over, on_line. intros H.
  destruct (startsWith (trim raw) "data:"); cbn [negb]; [|reflexivity].
  destruct (startsWith (trim (slice 5 (trim raw))) "{"); cbn [negb]; [|reflexivity].
  destruct (JSON_parse (trim (slice 5 (trim raw)))); [discriminate|reflexivity].
Qed.

(** C8. A complete line with no [data:] prefix, with a payload that does not
    begin with a brace, or with a payload that [JSON.parse] rejects, is passed
    over: nothing is thrown, nothing is done to [res], the flag is as before,
    and the lines around it are processed as if it were not there. *)
Theorem passed_over_line_skipped
    (JSON_parse : string -> option jsval) (Date_now : Z)
    (data : jsval) (config : config) (raw : string) :
  passed_over JSON_parse raw = true ->
  forall (ended : bool) (w : world),
    on_line JSON_parse Date_now data config ended raw w = (Ok ended, w)
    /\ forall before after : list string,
         forOf (before ++ raw :: after) (on_line JSON_parse Date_now data config) ended w
         = forOf (before ++ after) (on_line JSON_parse Date_now data config) ended w.
Proof.
  intros H ended w. split; [by apply on_line_passed_over|].
  intros before after. rewrite !forOf_app. unfold bind.
  destruct (forOf before _ ended w) as [[ended'|e] w']; [|reflexivity].
  cbn [forOf]. unfold bind. by rewrite on_line_passed_over.
Qed.

Lemma passed_over_line_skipped_witness :
  passed_over JsonText.parse "data: {not json" = true
  /\ forall (ended : bool) (w : world),
       on_line JsonText.parse 0 VNull (Scenario.settings None None None)
               ended "data: {not json" w = (Ok ended, w)
       /\ forall before after : list string,
            forOf (before ++ "data: {not json" :: after)
                  (on_line JsonText.parse 0 VNull (Scenario.settings None None None)) ended w
            = forOf (before ++ after)
                  (on_line JsonText.parse 0 VNull (Scenario.settings None None None)) ended w.
Proof.
  split; [reflexivity|].
  apply (passed_over_line_skipped JsonText.parse 0 VNull
           (Scenario.settings None None None) "data: {not json").
  reflexivity.
Defined.

(** ** A failure of the backend *)

Lemma prepare_res
    (JSON_parse : string -> option jsval) (Buffer_from_base64 : string -> list byte)
    (getFileExtension : string -> jsval) (getFileType : jsval -> jsval)
    (backend : list http_call -> http_call -> outcome response)
    (data : jsval) (config : config) (w : world) :
  res (snd (prepare JSON_parse Buffer_from_base64 getFileExtension getFileType
                    backend data config w)) = res w.
Proof.
  assert (hoare (fun w' => res w' = res w)
                (prepare JSON_parse Buffer_from_base64 getFileExtension getFileType
                         backend data config)
                (fun prepared => body_user (fst prepared)
                                 = userId_of config (prop data "user")
                                 /\ body_files (fst prepared) = [])) as H.
  { apply prepare_keeps with (Q := fun _ => True); auto. }
  destruct (H w eq_refl) as [Hres _]. exact Hres.
Qed.

(** C5, as amended. When the call of /workflows/run is answered with a
    status outside 200..299, the handler sets that status on [res] and sends
    the body of the answer as it is, and does nothing else to [res]: no chat
    response, and no frame of an event stream either, whether the request
    asked for streaming or not. *)
Theorem upstream_failure_forwarded
    (JSON_parse : string -> option jsval) (Buffer_from_base64 : string -> list byte)
    (Date_now : Z) (getFileExtension : string -> jsval) (getFileType : jsval -> jsval)
    (generateId : unit -> string)
    (backend : list http_call -> http_call -> outcome response)
    (data : jsval) (config : config) (w w1 : world)
    (prepared : request_body * jsval) (r : response) :
  prepare JSON_parse Buffer_from_base64 getFileExtension getFileType backend data config w
  = (Ok prepared, w1) ->
  backend (calls w1) (workflows_run config (fst prepared)) = Ok r ->
  ok r = false ->
  serve JSON_parse Buffer_from_base64 Date_now getFileExtension getFileType generateId
        backend data config w
  = (Ok tt, {| calls := calls w1 ++ [workflows_run config (fst prepared)];
               res := res w ++ [ResStatus (status r); ResSend (text r)] |}).
Proof.
  intros Hprepare Hbackend Hok.
  pose proof (prepare_res JSON_parse Buffer_from_base64 getFileExtension getFileType
                backend data config w) as Hres.
  rewrite Hprepare in Hres. cbn [snd] in Hres.
  unfold serve, handleRequest, try_catch, bind at 1 2.
  rewrite Hprepare. unfold bind at 1, fetch at 1. rewrite Hbackend.
  unfold respond. rewrite Hok. cbn. rewrite Hres, <- app_assoc. reflexivity.
Qed.

Lemma upstream_failure_forwarded_witness :
  let r := Scenario.reply 503 (Some "text/plain") [Scenario.utf8 "workflow engine down"] in
  ok r = false
  /\ res (snd (Scenario.run r (Scenario.ask false (VStr "hi"))
                            (Scenario.settings None None None)))
     = [ResStatus 503; ResSend "workflow engine down"].
Proof.
  cbn zeta. split; [reflexivity|].
  unfold Scenario.run.
  erewrite (upstream_failure_forwarded JsonText.parse (fun _ => []) 1700000000000
              (fun _ => VStr "png") (fun _ => VStr "image") (fun _ => "abc")
              (Scenario.backend (Scenario.reply 503 (Some "text/plain")
                                                [Scenario.utf8 "workflow engine down"]))
              (Scenario.ask false (VStr "hi")) (Scenario.settings None None None) start);
    [ | vm_compute; reflexivity | reflexivity | reflexivity ].
  reflexivity.
Defined.

(** C5, as stated, fails in streaming mode: the request asks for a stream,
    the backend answers 503, and the handler forwards status and body; no
    frame is written. *)
Lemma streaming_failure_not_framed :
  let r := Scenario.reply 503 (Some "text/plain") [Scenario.utf8 "workflow engine down"] in
  let w := snd (Scenario.run r (Scenario.ask true (VStr "hi"))
                             (Scenario.settings None None None)) in
  ok r = false
  /\ response_modes w = ["streaming"]
  /\ res w = [ResStatus 503; ResSend "workflow engine down"]
  /\ ~ sse_frame_written w.
Proof.
  cbn zeta.
  assert (res (snd (Scenario.run
                      (Scenario.reply 503 (Some "text/plain")
                                      [Scenario.utf8 "workflow engine down"])
                      (Scenario.ask true (VStr "hi"))
                      (Scenario.settings None None None)))
          = [ResStatus 503; ResSend "workflow engine down"]) as Hres
    by (vm_compute; reflexivity).
  split; [reflexivity|]. split; [vm_compute; reflexivity|]. split; [exact Hres|].
  intros [payload Hin]. rewrite Hres in Hin.
  destruct Hin as [H|[H|[]]]; discriminate H.
Qed.

(** ** The blocking path on a JSON reply *)

Lemma get_truthy (v : jsval) (k : string) :
  Js.truthy v = true -> Js.get v k = Ok (prop v k).
Proof. unfold prop. by destruct v. Qed.

Lemma get_prop_truthy (v : jsval) (k : string) :
  Js.truthy (prop v k) = true -> Js.get v k = Ok (prop v k).
Proof. unfold prop. by destruct v. Qed.

(** C6, as amended. In the blocking path, on an answer with a JSON content
    type that carries [data.outputs], the handler sends one chat response:
    its [choices[0].message.content] is [outputs[OUTPUT_VARIABLE]] when
    [config.OUTPUT_VARIABLE] is set and the whole [outputs] otherwise; its
    [usage.total_tokens] is [data.total_tokens] when that is truthy, and 110
    when it is absent, zero, null, false or the empty string. *)
Theorem json_reply_document
    (JSON_parse : string -> option jsval) (Date_now : Z) (generateId : unit -> string)
    (data stream : jsval) (config : config) (r : response) (w : world)
    (type : string) (jsonData model : jsval) :
  ok r = true ->
  Js.truthy stream = false ->
  content_type r = Some type ->
  includes type "application/json" = true ->
  json JSON_parse r = Ok jsonData ->
  Js.truthy (prop (prop jsonData "data") "outputs") = true ->
  Js.get data "model" = Ok model ->
  let outputs := prop (prop jsonData "data") "outputs" in
  let total_tokens := prop (prop jsonData "data") "total_tokens" in
  exists doc,
    respond JSON_parse Date_now generateId data config stream r w
    = (Ok Finished,
       {| calls := calls w;
          res := res w ++ [ResSetHeader "Content-Type" "application/json"; ResJson doc] |})
    /\ content_of doc
       = (if configured (OUTPUT_VARIABLE config)
          then prop outputs (Js.toString (field (OUTPUT_VARIABLE config)))
          else outputs)
    /\ total_tokens_of doc
       = (if Js.truthy total_tokens then total_tokens else VNum 110).
Proof.
  intros Hok Hstream Htype Hjson Hparse Houtputs Hmodel. cbn zeta.
  assert (Js.truthy (prop jsonData "data") = true) as Hdata.
  { destruct (prop jsonData "data"); try reflexivity; discriminate Houtputs. }
  set (d := prop jsonData "data") in *.
  set (outputs := prop d "outputs") in *.
  set (result := if configured (OUTPUT_VARIABLE config)
                 then prop outputs (Js.toString (field (OUTPUT_VARIABLE config)))
                 else outputs).
  set (usage := VObj [("total_tokens", Js.or (prop d "total_tokens") (VNum 110))]).
  exists (completion Date_now generateId model result usage).
  split; [|split].
  - unfold respond. rewrite Hok, Hstream, Htype. cbn [negb field Js.truthy Js.toString].
    assert (String.eqb type "" = false) as ->.
    { destruct type; [discriminate Hjson | reflexivity]. }
    cbn [negb andb]. rewrite Hjson.
    unfold json_reply, bind at 1 2 3. rewrite Hparse. cbn [lift ret].
    rewrite (get_prop_truthy jsonData "data" Hdata). fold d.
    cbn [lift ret]. unfold bind at 1. rewrite Hdata. cbn [andb].
    rewrite (get_prop_truthy d "outputs" Houtputs). fold outputs. cbn [lift ret].
    unfold bind at 1 2. rewrite Houtputs.
    assert (select_output config outputs = Ok result) as ->.
    { unfold select_output, result.
      destruct (configured (OUTPUT_VARIABLE config)); [|reflexivity].
      by apply get_truthy. }
    cbn [lift ret]. unfold bind at 1, usage_of.
    rewrite (get_truthy d "total_tokens" Hdata). cbn [lift ret].
    unfold bind at 1. rewrite Hmodel. cbn. rewrite <- app_assoc. reflexivity.
  - reflexivity.
  - unfold total_tokens_of, usage, prop, Js.or. cbn.
    by destruct (Js.truthy (match Js.get d "total_tokens" with Ok x => x | Throw _ => VUndef end)).
Qed.

(** The example of the specification: 42 tokens, the output ["hi"]. *)
Lemma json_reply_document_witness :
  exists doc,
    respond JsonText.parse 1700000000000 (fun _ => "abc")
            (Scenario.ask false (VStr "hi"))
            (Scenario.settings None None (Some "answer")) (VBool false)
            (Scenario.answer "42") start
    = (Ok Finished,
       {| calls := [];
          res := [ResSetHeader "Content-Type" "application/json"; ResJson doc] |})
    /\ content_of doc = VStr "hi"
    /\ total_tokens_of doc = VNum 42.
Proof.
  destruct (json_reply_document JsonText.parse 1700000000000 (fun _ => "abc")
              (Scenario.ask false (VStr "hi")) (VBool false)
              (Scenario.settings None None (Some "answer")) (Scenario.answer "42") start
              "application/json; charset=utf-8" (Scenario.answer_json 42) (VStr "dify"))
    as [doc [Hrespond [Hcontent Htokens]]];
    try (vm_compute; reflexivity).
  exists doc. split; [exact Hrespond|]. split.
  - rewrite Hcontent. reflexivity.
  - rewrite Htokens. reflexivity.
Defined.

(** C6, as stated, fails on a workflow that used no tokens: the answer has
    [total_tokens] 0, and the chat response reports 110. *)
Lemma zero_tokens_reported_as_110 :
  let w := snd (Scenario.run (Scenario.answer "0") (Scenario.ask false (VStr "hi"))
                             (Scenario.settings None None (Some "answer"))) in
  json JsonText.parse (Scenario.answer "0") = Ok (Scenario.answer_json 0)
  /\ prop (prop (Scenario.answer_json 0) "data") "total_tokens" = VNum 0
  /\ exists doc,
       res w = [ResSetHeader "Content-Type" "application/json"; ResJson doc]
       /\ content_of doc = VStr "hi"
       /\ total_tokens_of doc = VNum 110
       /\ total_tokens_of doc <> VNum 0.
Proof.
  cbn zeta. split; [vm_compute; reflexivity|]. split; [reflexivity|].
  eexists. split; [vm_compute; reflexivity|].
  split; [reflexivity|]. split; [reflexivity|]. discriminate.
Qed.

(** ** The uploader and its regular expression *)

Lemma append_cons (a : ascii) (s t : string) : String a s +:+ t = String a (s +:+ t).
Proof. reflexivity. Qed.

Lemma append_empty_l (s : string) : "" +:+ s = s.
Proof. reflexivity. Qed.

Lemma startsWith_iff (s p : string) :
  startsWith s p = true <-> exists r, s = p +:+ r.
Proof.
  revert s. induction p as [|a p IH]; intros s; cbn [startsWith].
  - split; [intros _; exists s; reflexivity | reflexivity].
  - destruct s as [|b s].
    + split; [discriminate | intros [r Hr]; discriminate Hr].
    + destruct (Ascii.eqb_spec a b) as [->|Hne]; cbn [andb].
      * rewrite IH. split; intros [r Hr]; exists r.
        -- by rewrite append_cons, <- Hr.
        -- rewrite append_cons in Hr. by injection Hr.
      * split; [discriminate|]. intros [r Hr]. rewrite append_cons in Hr.
        injection Hr as Hab _. by destruct Hne.
Qed.

Lemma split_last_Some (s m p : string) :
  DataUri.split_last s = Some (m, p) ->
  s = m +:+ DataUri.separator +:+ p /\ p <> "".
Proof.
  revert m p. induction s as [|c s IH]; intros m p; cbn [DataUri.split_last].
  - discriminate.
  - destruct (DataUri.split_last s) as [[m0 p0]|].
    + intros [= <- <-]. destruct (IH m0 p0 eq_refl) as [-> Hp].
      split; [reflexivity | assumption].
    + destruct (startsWith (String c s) DataUri.separator) eqn:Hstart; [|discriminate].
      apply startsWith_iff in Hstart as [r Hr]. rewrite Hr.
      change (slice 8 (DataUri.separator +:+ r)) with r.
      destruct (String.eqb_spec r "") as [|Hne]; [discriminate|].
      cbn [andb negb]. intros [= <- <-].
      split; [reflexivity | assumption].
Qed.

(** The first group is greedy: no other way to read the string leaves it
    more. *)
Lemma split_last_greedy (s m' p' : string) :
  s = m' +:+ DataUri.separator +:+ p' -> p' <> "" ->
  exists m p, DataUri.split_last s = Some (m, p)
              /\ (String.length m' <= String.length m)%nat.
Proof.
  revert m'. induction s as [|c s IH]; intros m' Hs Hp.
  - destruct m'; discriminate Hs.
  - cbn [DataUri.split_last]. destruct m' as [|c' m'].
    + rewrite append_empty_l in Hs.
      destruct (DataUri.split_last s) as [[m0 p0]|].
      * exists (String c m0), p0. split; [reflexivity | cbn; lia].
      * exists "", p'. rewrite Hs. split; [|cbn; lia].
        change (startsWith (DataUri.separator +:+ p') DataUri.separator) with true.
        change (slice 8 (DataUri.separator +:+ p')) with p'.
        destruct (String.eqb_spec p' ""); [done | reflexivity].
    + rewrite append_cons in Hs. injection Hs as -> Hs.
      destruct (IH m' Hs Hp) as (m & p & -> & Hlen).
      exists (String c' m), p. split; [reflexivity | cbn; lia].
Qed.

Lemma exec_Some (s m p : string) :
  DataUri.exec s = Some (m, p) ->
  s = "data:" +:+ m +:+ DataUri.separator +:+ p
  /\ m <> "" /\ p <> "" /\ single_line s
  /\ forall m' p', s = "data:" +:+ m' +:+ DataUri.separator +:+ p' -> p' <> "" ->
                   (String.length m' <= String.length m)%nat.
Proof.
  unfold DataUri.exec, single_line.
  destruct (startsWith s "data:") eqn:Hstart; [|discriminate].
  destruct (DataUri.has_line_terminator s); [discriminate|]. cbn [andb negb].
  apply startsWith_iff in Hstart as [rest ->]. change (slice 5 ("data:" +:+ rest)) with rest.
  destruct (DataUri.split_last rest) as [[[|c m0] p0]|] eqn:Hsplit; try discriminate.
  intros [= <- <-]. destruct (split_last_Some _ _ _ Hsplit) as [Hrest Hp].
  split; [by rewrite Hrest|]. repeat split; try done.
  intros m' p' Heq Hp'.
  assert (rest = m' +:+ DataUri.separator +:+ p') as Heq' by (by injection Heq).
  destruct (split_last_greedy _ m' p' Heq' Hp') as (m1 & p1 & H1 & Hlen).
  rewrite Hsplit in H1. by injection H1 as <- <-.
Qed.

Lemma exec_None (s : string) :
  DataUri.exec s = None -> ~ (data_uri_shape s /\ single_line s).
Proof.
  unfold DataUri.exec, single_line. intros Hexec [(mime & payload & Hm & Hp & ->) Hline].
  rewrite Hline in Hexec.
  change (startsWith ("data:" +:+ mime +:+ ";base64," +:+ payload) "data:") with true in Hexec.
  change (slice 5 ("data:" +:+ mime +:+ ";base64," +:+ payload))
    with (mime +:+ ";base64," +:+ payload) in Hexec.
  cbn [andb negb] in Hexec.
  destruct (split_last_greedy _ mime payload eq_refl Hp) as (m & p & Hsplit & Hlen).
  unfold DataUri.separator in Hsplit.
  rewrite Hsplit in Hexec. destruct m; [|discriminate].
  destruct mime; [done | cbn in Hlen; lia].
Qed.

Lemma extension_of_nth (contentType : string) :
  Js.toString (nth 1 (List.map VStr (split "/" contentType)) VUndef)
  = extension_of contentType.
Proof.
  unfold extension_of. by destruct (split "/" contentType) as [|? [|? ?]].
Qed.

Lemma upload_calls
    (JSON_parse : string -> option jsval) (Buffer_from_base64 : string -> list byte)
    (backend : list http_call -> http_call -> outcome response)
    (s : string) (config : config) (userId : jsval) (w : world) (m p : string) :
  DataUri.exec s = Some (m, p) ->
  let contentType := if String.eqb m "image/jpg" then "image/jpeg" else m in
  calls (snd (uploadFileToDify JSON_parse Buffer_from_base64 backend s config userId w))
  = calls w ++ [PostFilesUpload (DIFY_API_URL config +:+ "/files/upload")
                                ("Bearer " +:+ API_KEY config)
                                {| form_file := Buffer_from_base64 p;
                                   form_filename := "file." +:+ extension_of contentType;
                                   form_contentType := contentType;
                                   form_user := userId |}].
Proof.
  intros Hexec. cbn zeta. unfold uploadFileToDify. rewrite Hexec.
  rewrite extension_of_nth. unfold bind at 1, fetch.
  destruct (backend (calls w) _) as [r|e]; [|reflexivity].
  destruct (ok r); cbn [negb]; [|reflexivity].
  unfold bind. destruct (json JSON_parse r) as [result|e]; [|reflexivity].
  cbn [lift ret]. by destruct (Js.get result "id").
Qed.

(** C7, as amended. The uploader throws its invalid-input error, having
    sent nothing, exactly when the string is not of the shape
    [data:<mime>;base64,<payload>] on a single line: both parts not empty and
    no line terminator anywhere. On a match it sends one upload, whose content
    type is the longest [<mime>] the shape allows, with [image/jpg] replaced
    by [image/jpeg], and whose file name is [file.] followed by what stands
    between the first [/] of that content type and the next one or its end
    ([undefined] when it has no [/]). *)
Theorem uploader_shape
    (JSON_parse : string -> option jsval) (Buffer_from_base64 : string -> list byte)
    (backend : list http_call -> http_call -> outcome response)
    (s : string) (config : config) (userId : jsval) (w : world) :
  let run := uploadFileToDify JSON_parse Buffer_from_base64 backend s config userId w in
  ((fst run = Throw (Error "Invalid base64 data") /\ calls (snd run) = calls w)
   <-> ~ (data_uri_shape s /\ single_line s))
  /\ (data_uri_shape s /\ single_line s ->
      exists mime payload form,
        s = "data:" +:+ mime +:+ ";base64," +:+ payload
        /\ mime <> "" /\ payload <> ""
        /\ (forall mime' payload',
              s = "data:" +:+ mime' +:+ ";base64," +:+ payload' -> payload' <> "" ->
              (String.length mime' <= String.length mime)%nat)
        /\ calls (snd run)
           = calls w ++ [PostFilesUpload (DIFY_API_URL config +:+ "/files/upload")
                                         ("Bearer " +:+ API_KEY config) form]
        /\ form_file form = Buffer_from_base64 payload
        /\ form_contentType form
           = (if String.eqb mime "image/jpg" then "image/jpeg" else mime)
        /\ form_filename form = "file." +:+ extension_of (form_contentType form)
        /\ form_user form = userId).
Proof.
  cbn zeta. destruct (DataUri.exec s) as [[m p]|] eqn:Hexec.
  - pose proof (upload_calls JSON_parse Buffer_from_base64 backend s config userId w
                  m p Hexec) as Hcalls. cbn zeta in Hcalls.
    destruct (exec_Some s m p Hexec) as (Hs & Hm & Hp & Hline & Hgreedy).
    assert (data_uri_shape s) as Hshape by (by exists m, p).
    split.
    + split.
      * intros [_ Hsame]. rewrite Hsame in Hcalls.
        apply (f_equal (@List.length http_call)) in Hcalls.
        rewrite length_app in Hcalls. cbn in Hcalls. lia.
      * intros Hnot. by destruct Hnot.
    + intros _. eexists m, p, _. repeat split; try eassumption; reflexivity.
  - split.
    + split; [intros _; by apply exec_None|].
      intros _. unfold uploadFileToDify. rewrite Hexec. by split.
    + intros Hshape. by destruct (exec_None s Hexec).
Qed.

(** C7, as stated, fails on a payload that ends a line: the string has the
    shape, and the uploader throws its invalid-input error without sending
    anything. *)
Lemma payload_with_line_feed_rejected :
  let s := "data:image/png;base64,iVBORw0KGgo=" +:+ LF in
  data_uri_shape s
  /\ uploadFileToDify JsonText.parse (fun _ => [])
       (Scenario.backend (Scenario.answer "1")) s
       (Scenario.settings None None None) (VStr "apiuser") start
     = (Throw (Error "Invalid base64 data"), start).
Proof.
  cbn zeta. split; [|reflexivity].
  exists "image/png", ("iVBORw0KGgo=" +:+ LF). split; [done|]. split; [done|]. reflexivity.
Qed.

(** ** The images *)

Lemma add_file_input_inputs_of (files : list jsval) (fileInput : jsval) :
  add_file_input (inputs_of files) fileInput = Ok (inputs_of (files ++ [fileInput])).
Proof.
  unfold add_file_input, inputs_of, read. destruct files as [|f files].
  - rewrite lookup_empty. cbn [default Js.truthy].
    rewrite lookup_insert_eq. unfold default, id, push. cbn [app].
    by rewrite insert_insert_eq, insert_empty. 
  - rewrite lookup_singleton_eq. unfold default, id. cbn [Js.truthy].
    rewrite lookup_singleton_eq. unfold push.
    by rewrite insert_singleton_eq.
Qed.

Section ImageScanFacts.

Context (JSON_parse : string -> option jsval)
        (Buffer_from_base64 : string -> list byte)
        (getFileExtension : string -> jsval)
        (getFileType : jsval -> jsval)
        (backend : list http_call -> http_call -> outcome response)
        (config : config) (userId : jsval).

Local Abbreviation inputs_from :=
  (file_inputs JSON_parse Buffer_from_base64 getFileExtension getFileType backend
               config userId).
Local Abbreviation scan_one :=
  (scan_part JSON_parse Buffer_from_base64 getFileExtension getFileType backend
             config userId).

Lemma get_defined (v : jsval) (k : string) :
  v <> VUndef -> v <> VNull -> Js.get v k = Ok (prop v k).
Proof. unfold prop. by destruct v. Qed.

Lemma scan_part_spec (content : jsval) (files : list jsval) (w : world) :
  part_ok content = true ->
  scan_one (inputs_of files) content w
  = bind (inputs_from (part_urls [content]) files) (fun fs => ret (inputs_of fs)) w.
Proof.
  unfold part_ok, part_urls, scan_part. intros Hok.
  assert (content <> VUndef /\ content <> VNull) as [Hu Hn] by (by destruct content).
  assert (match image_url_of content with Some (VStr _) | None => true | Some _ => false end = true) as Hurl by (by destruct content).
  clear Hok. cbn [flat_map]. rewrite app_nil_r. unfold image_url_of in *.
  rewrite !get_defined by done. cbn [lift]. unfold bind at 1. cbn [ret].
  destruct (Js.eqStr (prop content "type") "image_url"); cbn [negb andb flat_map app] in *;
    [|reflexivity].
  unfold bind at 1. cbn [ret].
  destruct (Js.truthy (prop content "image_url")) eqn:Ht; cbn [negb andb flat_map app] in *;
    [|reflexivity].
  rewrite (get_truthy _ "url" Ht). cbn [lift]. unfold bind at 1. cbn [ret].
  destruct (Js.truthy (prop (prop content "image_url") "url")) eqn:Hturl;
    cbn [negb andb flat_map app]; [|reflexivity].
  destruct (prop (prop content "image_url") "url") as [| | | |url| |] eqn:Heq;
    try discriminate Hurl.
  cbn [startsWith_val lift Js.toString file_inputs app]. unfold bind at 1. cbn [ret].
  destruct (startsWith url "data:").
  - unfold bind. destruct (uploadFileToDify _ _ _ _ _ _ w) as [[fileId|e] w']; [|reflexivity].
    rewrite add_file_input_inputs_of. reflexivity.
  - rewrite add_file_input_inputs_of. reflexivity.
Qed.

Local Abbreviation scan_all :=
  (scan_message JSON_parse Buffer_from_base64 getFileExtension getFileType backend
                config userId).

Lemma file_inputs_app (urls urls' : list string) (files : list jsval) (w : world) :
  inputs_from (urls ++ urls') files w
  = bind (inputs_from urls files) (inputs_from urls') w.
Proof.
  revert files w. induction urls as [|url urls IH]; intros files w;
    cbn [app file_inputs].
  - reflexivity.
  - destruct (startsWith url "data:"); [|apply IH].
    unfold bind in *. destruct (uploadFileToDify _ _ _ _ _ _ w) as [[fileId|e] w'];
      [apply IH | reflexivity].
Qed.

Lemma scan_parts_spec (parts : list jsval) (files : list jsval) (w : world) :
  forallb part_ok parts = true ->
  forOf parts scan_one (inputs_of files) w
  = bind (inputs_from (part_urls parts) files) (fun fs => ret (inputs_of fs)) w.
Proof.
  revert files w. induction parts as [|content parts IH]; intros files w Hok.
  - reflexivity.
  - cbn [forallb] in Hok. apply andb_prop in Hok as [Hc Hparts].
    assert (part_urls (content :: parts) = part_urls [content] ++ part_urls parts) as ->.
    { unfold part_urls. cbn [flat_map]. by rewrite app_nil_r. }
    cbn [forOf]. unfold bind. rewrite scan_part_spec by done.
    rewrite file_inputs_app. unfold bind.
    destruct (inputs_from (part_urls [content]) files w) as [[fs|e] w']; [|reflexivity].
    cbn [ret]. by apply IH.
Qed.

Lemma scan_message_spec (message : jsval) (files : list jsval) (w : world) :
  message_ok message = true ->
  scan_all (inputs_of files) message w
  = bind (inputs_from (image_urls [message]) files) (fun fs => ret (inputs_of fs)) w.
Proof.
  unfold message_ok, image_urls. cbn [flat_map]. rewrite app_nil_r. intros Hm.
  assert (message <> VUndef /\ message <> VNull) as [Hu Hn] by (by destruct message).
  assert (match prop message "content" with
          | VArr parts => forallb part_ok parts
          | _ => true
          end = true) as Hparts by (by destruct message).
  unfold scan_message.
  rewrite get_defined by done. cbn [lift]. unfold bind at 1. cbn [ret].
  destruct (prop message "content") as [| | | | |parts|]; try reflexivity.
  by apply scan_parts_spec.
Qed.

Lemma scan_messages_spec (messages : list jsval) (files : list jsval) (w : world) :
  forallb message_ok messages = true ->
  forOf messages scan_all (inputs_of files) w
  = bind (inputs_from (image_urls messages) files) (fun fs => ret (inputs_of fs)) w.
Proof.
  revert files w. induction messages as [|message messages IH]; intros files w Hok.
  - reflexivity.
  - cbn [forallb] in Hok. apply andb_prop in Hok as [Hm Hmessages].
    assert (image_urls (message :: messages) = image_urls [message] ++ image_urls messages)
      as ->.
    { unfold image_urls. cbn [flat_map]. by rewrite app_nil_r. }
    cbn [forOf]. unfold bind. rewrite scan_message_spec by done.
    rewrite file_inputs_app. unfold bind.
    destruct (inputs_from (image_urls [message]) files w) as [[fs|e] w']; [|reflexivity].
    cbn [ret]. by apply IH.
Qed.


Lemma upload_returns (url : string) (w w' : world) (fileId : jsval) :
  uploadFileToDify JSON_parse Buffer_from_base64 backend url config userId w
  = (Ok fileId, w') ->
  exists c, is_upload c /\ calls w' = calls w ++ [c] /\ res w' = res w.
Proof.
  unfold uploadFileToDify. destruct (DataUri.exec url) as [[m p]|]; [|discriminate].
  unfold bind at 1, fetch. destruct (backend (calls w) _) as [r|e]; [|discriminate].
  destruct (ok r); cbn [negb]; [|discriminate].
  unfold bind. destruct (json JSON_parse r) as [result|e]; [|discriminate].
  cbn [lift ret]. destruct (Js.get result "id"); [|discriminate].
  intros [= _ <-]. eexists. split; [|split; reflexivity]. exact I.
Qed.

Lemma file_inputs_returns (urls : list string) (files files' : list jsval) (w w' : world) :
  inputs_from urls files w = (Ok files', w') ->
  exists new uploads,
    files' = files ++ new
    /\ Forall2 (file_input_for getFileExtension getFileType) urls new
    /\ calls w' = calls w ++ uploads
    /\ Forall is_upload uploads
    /\ List.length uploads
       = List.length (List.filter (fun url => startsWith url "data:") urls)
    /\ res w' = res w.
Proof.
  revert files w. induction urls as [|url urls IH]; intros files w;
    cbn [file_inputs List.filter].
  - intros [= <- <-]. exists [], []. rewrite !app_nil_r. by repeat split.
  - destruct (startsWith url "data:") eqn:Hdata.
    + unfold bind.
      destruct (uploadFileToDify _ _ _ _ _ _ w) as [[fileId|e] w1] eqn:Hup; [|discriminate].
      intros Hrest. destruct (upload_returns _ _ _ _ Hup) as (c & Hc & Hcalls & Hres).
      destruct (IH _ _ Hrest) as (new & uploads & -> & Hnew & Hcalls' & Hups & Hlen & Hres').
      exists (local_file fileId (getFileType (getFileExtension url)) :: new), (c :: uploads).
      rewrite <- app_assoc. repeat split; try done.
      * constructor; [|done]. unfold file_input_for. rewrite Hdata. by eexists.
      * by rewrite Hcalls', Hcalls, <- app_assoc.
      * by constructor.
      * cbn. by rewrite Hlen.
      * by rewrite Hres', Hres.
    + intros Hrest.
      destruct (IH _ _ Hrest) as (new & uploads & -> & Hnew & Hcalls' & Hups & Hlen & Hres').
      exists (remote_url url (getFileType (getFileExtension url)) :: new), uploads.
      rewrite <- app_assoc. repeat split; try done.
      constructor; [|done]. unfold file_input_for. by rewrite Hdata.
Qed.

Lemma file_inputs_total (urls : list string) (files : list jsval) (w : world) :
  (forall url, In url urls -> startsWith url "data:" = true ->
     forall w0, exists fileId w1,
       uploadFileToDify JSON_parse Buffer_from_base64 backend url config userId w0
       = (Ok fileId, w1)) ->
  exists files' w', inputs_from urls files w = (Ok files', w').
Proof.
  revert files w. induction urls as [|url urls IH]; intros files w Hup; cbn [file_inputs].
  - by eexists _, _.
  - assert (forall url', In url' urls -> startsWith url' "data:" = true ->
              forall w0, exists fileId w1,
                uploadFileToDify JSON_parse Buffer_from_base64 backend url' config userId w0
                = (Ok fileId, w1)) as Hrest.
    { intros url' Hin. apply Hup. by right. }
    destruct (startsWith url "data:") eqn:Hdata; [|by apply IH].
    destruct (Hup url (or_introl eq_refl) Hdata w) as (fileId & w1 & Hfile).
    unfold bind. rewrite Hfile. by apply IH.
Qed.

End ImageScanFacts.

(** C4. For messages of the data model, the scan of the images does what
    the specification tells: it goes through the image urls of the messages
    whose content is an array, in the order of the source; a [data:] url is
    handed to the uploader, once, and gives a [local_file] input with the id
    the uploader returned, any other url gives a [remote_url] input and no call
    of the uploader; a scan that returns leaves under ["file_input"] the array
    of these inputs in this order (and no such key when there is no image),
    having sent one upload for each [data:] url and nothing else; and the scan
    returns when the uploader returns for each [data:] url. *)
Theorem image_scan
    (JSON_parse : string -> option jsval) (Buffer_from_base64 : string -> list byte)
    (getFileExtension : string -> jsval) (getFileType : jsval -> jsval)
    (backend : list http_call -> http_call -> outcome response)
    (config : config) (userId : jsval) (messages : list jsval) :
  forallb message_ok messages = true ->
  forall w : world,
    let scan := forOf messages
                  (scan_message JSON_parse Buffer_from_base64 getFileExtension getFileType
                                backend config userId) ∅ in
    scan w
    = bind (file_inputs JSON_parse Buffer_from_base64 getFileExtension getFileType
                        backend config userId (image_urls messages) [])
           (fun files => ret (inputs_of files)) w
    /\ (forall inputs w', scan w = (Ok inputs, w') ->
         exists files uploads,
           inputs = inputs_of files
           /\ read inputs "file_input"
              = match files with [] => VUndef | _ => VArr files end
           /\ Forall2 (file_input_for getFileExtension getFileType)
                      (image_urls messages) files
           /\ calls w' = calls w ++ uploads
           /\ Forall is_upload uploads
           /\ List.length uploads
              = List.length (List.filter (fun url => startsWith url "data:")
                                         (image_urls messages))
           /\ res w' = res w)
    /\ ((forall url, In url (image_urls messages) -> startsWith url "data:" = true ->
           forall w0, exists fileId w1,
             uploadFileToDify JSON_parse Buffer_from_base64 backend url config userId w0
             = (Ok fileId, w1)) ->
        exists inputs w', scan w = (Ok inputs, w')).
Proof.
  intros Hok w. cbn zeta.
  pose proof (scan_messages_spec JSON_parse Buffer_from_base64 getFileExtension
                getFileType backend config userId messages [] w Hok) as Hspec.
  change (inputs_of []) with (∅ : gmap string jsval) in Hspec.
  split; [exact Hspec|]. split; cycle 1.
  { intros Hup. rewrite Hspec. unfold bind.
    destruct (file_inputs_total JSON_parse Buffer_from_base64 getFileExtension
                getFileType backend config userId (image_urls messages) [] w Hup)
      as (files & w' & ->).
    by eexists _, _. }
  intros inputs w'. rewrite Hspec. unfold bind.
  destruct (file_inputs _ _ _ _ _ _ _ _ _ w) as [[files|e] w1] eqn:Hfiles; [|discriminate].
  intros [= <- <-].
  apply file_inputs_returns in Hfiles
    as (new & uploads & -> & Hnew & Hcalls & Hups & Hlen & Hres).
  exists new, uploads. repeat split; try done.
  unfold inputs_of, read. cbn [app]. destruct new; [by rewrite lookup_empty|].
  by rewrite lookup_singleton_eq.
Qed.

Lemma image_scan_witness :
  forallb message_ok Scenario.album = true
  /\ image_urls Scenario.album
     = ["data:image/jpg;base64,AAAA"; "https://cdn.example/cat.png"]
  /\ forOf Scenario.album
           (scan_message JsonText.parse (fun _ => []) (fun _ => VStr "png")
                         (fun _ => VStr "image") (Scenario.backend (Scenario.answer "1"))
                         (Scenario.settings None None None) (VStr "apiuser")) ∅ start
     = bind (file_inputs JsonText.parse (fun _ => []) (fun _ => VStr "png")
                         (fun _ => VStr "image") (Scenario.backend (Scenario.answer "1"))
                         (Scenario.settings None None None) (VStr "apiuser")
                         (image_urls Scenario.album) [])
            (fun files => ret (inputs_of files)) start.
Proof.
  split; [reflexivity|]. split; [reflexivity|].
  apply (image_scan JsonText.parse (fun _ => []) (fun _ => VStr "png")
           (fun _ => VStr "image") (Scenario.backend (Scenario.answer "1"))
           (Scenario.settings None None None) (VStr "apiuser") Scenario.album eq_refl start).
Defined.

(** ** Chunks of the stream *)

Lemma split_nonempty (sep : ascii) (s : string) : split sep s <> [].
Proof.
  destruct s as [|c s]; cbn [split]; [done|].
  destruct (Ascii.eqb c sep); [done|]. by destruct (split sep s).
Qed.

Lemma complete_cons (c : ascii) (s : string) :
  complete (String c s)
  = if Ascii.eqb c nl then "" :: complete s
    else match complete s with
         | [] => []
         | l :: ls => String c l :: ls
         end.
Proof.
  unfold complete. cbn [split]. pose proof (split_nonempty nl s) as Hne.
  destruct (Ascii.eqb c nl).
  - cbn [removelast]. by destruct (split nl s).
  - destruct (split nl s) as [|l [|l' ls]]; [done|reflexivity|reflexivity].
Qed.

Lemma partial_cons (c : ascii) (s : string) :
  partial (String c s)
  = if Ascii.eqb c nl then partial s
    else match complete s with
         | [] => String c (partial s)
         | _ => partial s
         end.
Proof.
  unfold partial, complete. cbn [split]. pose proof (split_nonempty nl s) as Hne.
  destruct (Ascii.eqb c nl).
  - cbn [List.last]. by destruct (split nl s).
  - destruct (split nl s) as [|l [|l' ls]]; [done|reflexivity|reflexivity].
Qed.

Lemma complete_partial_app (a b : string) :
  complete (a +:+ b) = complete a ++ complete (partial a +:+ b)
  /\ partial (a +:+ b) = partial (partial a +:+ b).
Proof.
  induction a as [|c a [IHc IHp]].
  - by split.
  - rewrite append_cons, !complete_cons, !partial_cons.
    destruct (Ascii.eqb c nl) eqn:Hc.
    + rewrite IHc, IHp. by split.
    + rewrite IHc, IHp. destruct (complete a) as [|l ls].
      * rewrite append_cons, complete_cons, partial_cons, Hc. by split.
      * by split.
Qed.

Lemma partial_idempotent (s : string) :
  complete (partial s) = [] /\ partial (partial s) = partial s.
Proof.
  induction s as [|c s [IHc IHp]]; [by split|].
  rewrite partial_cons. destruct (Ascii.eqb c nl) eqn:Hc; [by split|].
  destruct (complete s); [|by split].
  rewrite complete_cons, partial_cons, Hc, IHc, IHp. by split.
Qed.

Lemma append_empty_r (s : string) : s +:+ "" = s.
Proof. induction s as [|c s IH]; [reflexivity|]. by rewrite append_cons, IH. Qed.

Lemma append_assoc (s t u : string) : (s +:+ t) +:+ u = s +:+ t +:+ u.
Proof. induction s as [|c s IH]; [reflexivity|]. by rewrite !append_cons, IH. Qed.

Lemma forOf_map {A B S} (f : A -> B) (xs : list A) (body : S -> B -> M S) (s : S) (w : world) :
  forOf (List.map f xs) body s w = forOf xs (fun s x => body s (f x)) s w.
Proof.
  revert s w. induction xs as [|x xs IH]; intros s w; cbn [List.map forOf]; [reflexivity|].
  unfold bind. destruct (body s (f x) w) as [[s'|e] w']; [apply IH | reflexivity].
Qed.

Section Chunks.

Context (JSON_parse : string -> option jsval) (Date_now : Z)
        (data : jsval) (config : config).

Local Abbreviation line_step := (on_line JSON_parse Date_now data config).
Local Abbreviation text_step := (on_text JSON_parse Date_now data config).
Local Abbreviation data_step := (on_data JSON_parse Date_now data config).

Lemma on_text_join (texts : list string) (st : stream_state) (w : world) :
  complete (buffer st) = [] -> partial (buffer st) = buffer st ->
  forOf texts text_step st w = text_step st (join_texts texts) w.
Proof.
  revert st w. induction texts as [|t texts IH]; intros [b e] w Hc Hp; cbn [buffer] in *.
  - cbn [forOf join_texts fold_right]. unfold on_text. cbn [buffer isResponseEnded].
    rewrite append_empty_r.
    change (removelast (split nl b)) with (complete b).
    change (List.last (split nl b) "") with (partial b).
    rewrite Hc, Hp. reflexivity.
  - cbn [forOf join_texts fold_right]. fold (join_texts texts).
    unfold bind at 1. unfold on_text at 1 3. cbn [buffer isResponseEnded].
    rewrite <- append_assoc.
    change (removelast (split nl ?x)) with (complete x).
    change (List.last (split nl ?x) "") with (partial x).
    destruct (complete_partial_app (b +:+ t) (join_texts texts)) as [-> ->].
    unfold bind at 2. rewrite forOf_app. unfold bind.
    destruct (forOf (complete (b +:+ t)) _ e w) as [[e1|err] w1]; [|reflexivity].
    cbn [ret]. rewrite IH; cbn [buffer]; try apply partial_idempotent.
    reflexivity.
Qed.

(** Text-level chunking independence *)
Lemma stream_join (chunks : list (list byte)) (w : world) :
  stream JSON_parse Date_now data config chunks w
  = text_step listening_start (join_texts (List.map Buffer.toString chunks)) w.
Proof.
  unfold stream, on_data.
  rewrite <- (forOf_map Buffer.toString chunks text_step).
  by apply on_text_join.
Qed.

End Chunks.

(** ** Decoding chunk by chunk *)

Lemma decode_app (d : Buffer.decoder) (a b : list byte) :
  Buffer.decode d (a ++ b)
  = fst (Buffer.feed d a) +:+ Buffer.decode (snd (Buffer.feed d a)) b.
Proof.
  revert d. induction a as [|x a IH]; intros d; cbn [app Buffer.decode Buffer.feed].
  - reflexivity.
  - destruct (Buffer.step d x) as [out d']. rewrite IH.
    destruct (Buffer.feed d' a) as [out' d'']. cbn [fst snd].
    by rewrite append_assoc.
Qed.

Lemma toString_app (a b : list byte) :
  Buffer.at_boundary a ->
  Buffer.toString (a ++ b) = Buffer.toString a +:+ Buffer.toString b.
Proof.
  unfold Buffer.at_boundary, Buffer.toString. intros Ha.
  rewrite decode_app, Ha. f_equal.
  rewrite <- (app_nil_r a) at 2. rewrite decode_app, Ha. cbn [Buffer.decode Buffer.idle Buffer.needed].
  by rewrite append_empty_r.
Qed.

Lemma toString_concat (chunks : list (list byte)) :
  Forall Buffer.at_boundary (removelast chunks) ->
  Buffer.toString (Buffer.concat chunks) = join_texts (List.map Buffer.toString chunks).
Proof.
  unfold Buffer.concat. induction chunks as [|chunk chunks IH]; intros Hb.
  - reflexivity.
  - cbn [List.concat List.map join_texts fold_right]. fold (join_texts (List.map Buffer.toString chunks)).
    destruct chunks as [|chunk' chunks].
    + cbn [List.concat List.map join_texts fold_right]. by rewrite app_nil_r, append_empty_r.
    + cbn [removelast] in Hb. apply Forall_cons in Hb as [Hchunk Hrest].
      rewrite toString_app by done. f_equal. by apply IH.
Qed.

Lemma ascii_at_boundary (bs : list byte) :
  Forall (fun b => (Byte.to_N b <= 127)%N) bs -> Buffer.at_boundary bs.
Proof.
  unfold Buffer.at_boundary. induction 1 as [|b bs Hb _ IH]; [reflexivity|].
  cbn [Buffer.feed]. unfold Buffer.step, Buffer.lead. cbn [Buffer.idle Buffer.needed].
  apply N.leb_le in Hb. rewrite Hb. by destruct (Buffer.feed Buffer.idle bs).
Qed.

(** X19. Chunks that end between characters: however the stream is cut
    into them, also inside a line, the streaming listener does what it does on
    the whole stream in one chunk. *)
Lemma stream_whole
    (JSON_parse : string -> option jsval) (Date_now : Z) (data : jsval) (config : config)
    (chunks : list (list byte)) (w : world) :
  Forall Buffer.at_boundary (removelast chunks) ->
  stream JSON_parse Date_now data config chunks w
  = stream JSON_parse Date_now data config [Buffer.concat chunks] w.
Proof.
  intros Hb. rewrite !stream_join. cbn [List.map join_texts fold_right].
  by rewrite append_empty_r, toString_concat.
Qed.

(** C3, at the input where the code departs from it: a stream whose answer
    holds a two-byte character, whole and cut between the two bytes. Whole,
    the answer is written as it came; cut, each chunk is decoded on its own
    and the client gets two U+FFFD for the character. *)
Theorem chunk_cut_inside_character :
  let request := Scenario.ask true (VStr "hi") in
  let config := Scenario.settings None None (Some "answer") in
  let whole := Scenario.run (Scenario.reply 200 (Some "text/event-stream")
                                            [Scenario.cafe_head ++ Scenario.cafe_tail])
                            request config in
  let cut := Scenario.run (Scenario.reply 200 (Some "text/event-stream")
                                          [Scenario.cafe_head; Scenario.cafe_tail])
                          request config in
  res (snd whole)
  = [ResSetHeader "Content-Type" "text/event-stream";
     ResWrite (Scenario.chunk_for "café"); ResWrite DONE; ResEnd]
  /\ res (snd cut)
     = [ResSetHeader "Content-Type" "text/event-stream";
        ResWrite (Scenario.chunk_for ("caf" +:+ Buffer.REPLACEMENT +:+ Buffer.REPLACEMENT));
        ResWrite DONE; ResEnd]
  /\ res (snd cut) <> res (snd whole).
Proof.
  cbn zeta.
  split; [vm_compute; reflexivity|].
  split; [vm_compute; reflexivity|].
  vm_compute. discriminate.
Qed.

(** ** The end of a stream *)

Lemma sentinels_snoc (ops : list res_op) (op : res_op) :
  sentinels (ops ++ [op]) = (sentinels ops + if is_done op then 1 else 0)%nat.
Proof.
  unfold sentinels. rewrite List.filter_app, length_app. cbn [List.filter].
  by destruct (is_done op).
Qed.

Lemma frame_not_done (doc : list (string * jsval)) :
  is_done (ResWrite ("data: " +:+ Js.stringify (VObj doc) +:+ LFLF)) = false.
Proof. reflexivity. Qed.

Section Latch.

Context (JSON_parse : string -> option jsval) (Date_now : Z)
        (data : jsval) (config : config).

Lemma dispatch_latch (ended : bool) (chunkObj : jsval) (w : world) :
  latch ended w -> keeps_latch ended (dispatch Date_now data config ended chunkObj w).
Proof.
  intros Hlatch. unfold dispatch, keeps_latch.
  unfold bind at 1. destruct (Js.get chunkObj "event") as [event|e]; cbn [lift ret throw];
    [|exact Hlatch].
  repeat (match goal with
          | |- context [if Js.eqStr event ?s then _ else _] =>
              destruct (Js.eqStr event s); [try exact Hlatch|]
          end); try exact Hlatch.
  - unfold bind at 1. destruct (Js.get chunkObj "data") as [d|e]; cbn [lift ret throw];
      [|exact Hlatch].
    unfold bind at 1. destruct (Js.get d "outputs") as [o|e]; cbn [lift ret throw];
      [|exact Hlatch].
    unfold bind at 1. destruct (select_output config o) as [r|e]; cbn [lift ret throw];
      [|exact Hlatch].
    unfold bind at 1. destruct (Js.get chunkObj "created_at") as [c|e]; cbn [lift ret throw];
      [|exact Hlatch].
    destruct ended; cbn [negb]; [exact Hlatch|].
    unfold bind at 1. destruct (Js.get data "model") as [m|e]; cbn [lift ret throw];
      [|exact Hlatch].
    unfold latch in *. unfold bind, res_do, ret. cbn [res calls].
    rewrite !sentinels_snoc, Hlatch.
    unfold completion_chunk. rewrite frame_not_done. reflexivity.
  - unfold bind at 1. destruct (Js.get chunkObj "message") as [m|e]; cbn [lift ret throw];
      [|exact Hlatch].
    unfold latch in *.
    destruct ended; cbn [negb]; unfold bind, res_do, ret; cbn [res calls];
      rewrite !sentinels_snoc, ?frame_not_done, Hlatch; reflexivity.
Qed.

Lemma on_line_latch (ended : bool) (raw : string) (w : world) :
  latch ended w -> keeps_latch ended (on_line JSON_parse Date_now data config ended raw w).
Proof.
  intros Hlatch. unfold on_line.
  destruct (startsWith (trim raw) "data:"); cbn [negb]; [|exact Hlatch].
  destruct (startsWith (trim (slice 5 (trim raw))) "{"); cbn [negb]; [|exact Hlatch].
  destruct (JSON_parse _); [by apply dispatch_latch | exact Hlatch].
Qed.

Lemma lines_latch (lines : list string) (ended : bool) (w : world) :
  latch ended w ->
  exists ended', latch ended' (snd (forOf lines (on_line JSON_parse Date_now data config) ended w))
    /\ forall e, fst (forOf lines (on_line JSON_parse Date_now data config) ended w) = Ok e -> e = ended'.
Proof.
  revert ended w. induction lines as [|raw lines IH]; intros ended w Hlatch; cbn [forOf].
  - exists ended. split; [exact Hlatch|]. by intros e [= <-].
  - unfold bind. pose proof (on_line_latch ended raw w Hlatch) as Hstep.
    destruct (on_line _ _ _ _ ended raw w) as [[ended1|err] w1]; cbn [keeps_latch] in Hstep.
    + by apply IH.
    + exists ended. split; [exact Hstep|]. discriminate.
Qed.

(** X15. In the streaming path the sentinel [data: [DONE]] is written once
    at most, whatever the frames and however they are cut into chunks, and
    once when the state the stream leaves is the terminated one. *)
Lemma sentinel_once (chunks : list (list byte)) (w : world) :
  sentinels (res w) = 0%nat ->
  let run := stream JSON_parse Date_now data config chunks w in
  (sentinels (res (snd run)) <= 1)%nat
  /\ forall st, fst run = Ok st ->
       sentinels (res (snd run)) = if isResponseEnded st then 1%nat else 0%nat.
Proof.
  intros Hzero. cbn zeta. rewrite stream_join. unfold on_text. cbn [buffer isResponseEnded listening_start].
  destruct (lines_latch (removelast (split nl ("" +:+ join_texts (List.map Buffer.toString chunks))))
              false w Hzero) as (ended' & Hlatch & Hfst).
  unfold bind.
  destruct (forOf _ _ false w) as [[e|err] w1]; cbn [fst snd ret] in *.
  - rewrite (Hfst e eq_refl). unfold latch in Hlatch. split.
    + rewrite Hlatch. destruct ended'; lia.
    + by intros st [= <-].
  - unfold latch in Hlatch. split; [|discriminate]. rewrite Hlatch. destruct ended'; lia.
Qed.

(** X16. Once the response was ended, a frame that is not an [error]
    frame does nothing to it: a second [workflow_finished] frame writes no
    second result. *)
Lemma dispatch_after_end (chunkObj : jsval) (w : world) :
  Js.eqStr (prop chunkObj "event") "error" = false ->
  snd (dispatch Date_now data config true chunkObj w) = w.
Proof.
  intros Hevent. unfold dispatch.
  unfold bind at 1. unfold prop in Hevent.
  destruct (Js.get chunkObj "event") as [event|e]; cbn [lift ret throw]; [|reflexivity].
  repeat (match goal with
          | |- context [if Js.eqStr event ?s then _ else _] =>
              destruct (Js.eqStr event s) eqn:?; [try reflexivity|]
          end); try reflexivity; try discriminate.
  unfold bind at 1. destruct (Js.get chunkObj "data") as [d|e]; cbn [lift ret throw];
    [|reflexivity].
  unfold bind at 1. destruct (Js.get d "outputs") as [o|e]; cbn [lift ret throw];
    [|reflexivity].
  unfold bind at 1. destruct (select_output config o) as [r|e]; cbn [lift ret throw];
    [|reflexivity].
  unfold bind at 1. by destruct (Js.get chunkObj "created_at") as [c|e].
Qed.

End Latch.



(** C1, at the input where the code departs from it: a [workflow_finished]
    frame followed by an [error] frame. The result chunk, the sentinel and the
    end of the response are followed by a second terminal emission, the error
    payload, written to a response that was ended. *)
Theorem error_frame_after_end :
  let stream := [Scenario.line (Scenario.finished "hi"); Scenario.line Scenario.failed] in
  let w := snd (Scenario.run (Scenario.reply 200 (Some "text/event-stream") stream)
                             (Scenario.ask true (VStr "hi"))
                             (Scenario.settings None None (Some "answer"))) in
  res w
  = [ResSetHeader "Content-Type" "text/event-stream";
     ResWrite (Scenario.chunk_for "hi"); ResWrite DONE; ResEnd;
     ResStatus 500;
     ResWrite (JsonText.quoted "data: {'error':'boom'}" +:+ LFLF);
     ResEnd]
  /\ writes_after_end (res w).
Proof.
  cbn zeta.
  assert (res (snd (Scenario.run
                      (Scenario.reply 200 (Some "text/event-stream")
                         [Scenario.line (Scenario.finished "hi");
                          Scenario.line Scenario.failed])
                      (Scenario.ask true (VStr "hi"))
                      (Scenario.settings None None (Some "answer"))))
          = [ResSetHeader "Content-Type" "text/event-stream";
             ResWrite (Scenario.chunk_for "hi"); ResWrite DONE; ResEnd;
             ResStatus 500;
             ResWrite (JsonText.quoted "data: {'error':'boom'}" +:+ LFLF);
             ResEnd]) as Hres by (vm_compute; reflexivity).
  split; [exact Hres|]. rewrite Hres.
  exists [ResSetHeader "Content-Type" "text/event-stream";
          ResWrite (Scenario.chunk_for "hi"); ResWrite DONE],
         [ResStatus 500; ResWrite (JsonText.quoted "data: {'error':'boom'}" +:+ LFLF);
          ResEnd],
         (JsonText.quoted "data: {'error':'boom'}" +:+ LFLF).
  split; [reflexivity|]. right. by left.
Qed.

(** ** What handleRequest does to its response *)

Lemma get_present (v : jsval) (k : string) :
  present v = true -> Js.get v k = Ok (prop v k).
Proof. unfold prop. by destruct v. Qed.

Section Answers.

Context (JSON_parse : string -> option jsval)
        (Buffer_from_base64 : string -> list byte)
        (Date_now : Z)
        (getFileExtension : string -> jsval)
        (getFileType : jsval -> jsval)
        (generateId : unit -> string)
        (backend : list http_call -> http_call -> outcome response)
        (data : jsval) (config : config).

Lemma prepare_calls (w : world) :
  exists uploads,
    calls (snd (prepare JSON_parse Buffer_from_base64 getFileExtension getFileType
                        backend data config w)) = calls w ++ uploads
    /\ Forall is_upload uploads.
Proof.
  assert (hoare (fun w' => exists uploads, calls w' = calls w ++ uploads
                                           /\ Forall is_upload uploads)
                (prepare JSON_parse Buffer_from_base64 getFileExtension getFileType
                         backend data config)
                (fun prepared => body_user (fst prepared)
                                 = userId_of config (prop data "user")
                                 /\ body_files (fst prepared) = [])) as H.
  { apply prepare_keeps with (Q := is_upload); auto.
    - intros url auth form _. exact I.
    - intros w' c Hc (uploads & Hcalls & Hup). exists (uploads ++ [c]). cbn [calls].
      rewrite Hcalls, <- app_assoc. split; [reflexivity|].
      apply Forall_app. split; [exact Hup | by constructor]. }
  destruct (H w) as [Hcalls _]; [|exact Hcalls].
  exists []. by rewrite app_nil_r.
Qed.

Lemma prepare_mode (w w1 : world) (requestBody : request_body) (stream : jsval) :
  prepare JSON_parse Buffer_from_base64 getFileExtension getFileType backend data config w
  = (Ok (requestBody, stream), w1) ->
  body_response_mode requestBody = (if Js.truthy stream then "streaming" else "blocking").
Proof.
  unfold prepare.
  repeat (unfold bind at 1;
          match goal with
          | |- context [lift ?o ?w] => destruct o as [?|?]; cbn [lift ret throw]
          | |- context [forOf ?xs ?f ?s ?w] => destruct (forOf xs f s w) as [[?|?] ?]
          end; try discriminate).
  by intros [= <- <- _].
Qed.

(** The JSON reply: one document, or an exception before anything is done
    to [res]. *)
Lemma json_reply_cases (r : response) (w : world) :
  match json_reply JSON_parse Date_now generateId data config r w with
  | (Ok _, w') =>
      exists doc, w' = {| calls := calls w;
                          res := res w ++ [ResSetHeader "Content-Type" "application/json";
                                           ResJson doc] |}
  | (Throw _, w') => w' = w
  end.
Proof.
  unfold json_reply.
  repeat (unfold bind at 1;
          match goal with
          | |- context [lift ?o w] => destruct o as [?|?]; cbn [lift ret throw]
          | |- context [(if ?b then _ else _) w] => destruct b; cbn [lift ret throw]
          end; try reflexivity).
  all: eexists; unfold bind, res_do; cbn; rewrite <- app_assoc; reflexivity.
Qed.

Lemma respond_cases (stream : jsval) (r : response) (w : world) :
  match respond JSON_parse Date_now generateId data config stream r w with
  | (Ok l, w') =>
      calls w' = calls w
      /\ ((ok r = false /\ l = Finished
           /\ res w' = res w ++ [ResStatus (status r); ResSend (text r)])
          \/ (ok r = true /\ Js.truthy stream = true /\ l = OnStream r
              /\ res w' = res w ++ [ResSetHeader "Content-Type" "text/event-stream"])
          \/ (ok r = true /\ Js.truthy stream = false /\ l = Finished
              /\ exists doc, res w' = res w ++ [ResSetHeader "Content-Type" "application/json";
                                                ResJson doc])
          \/ (ok r = true /\ Js.truthy stream = false /\ l = OnCollect r /\ res w' = res w))
  | (Throw _, w') => w' = w
  end.
Proof.
  unfold respond. destruct (ok r); cbn [negb].
  - destruct (Js.truthy stream).
    + cbn. split; [reflexivity|]. right. left. done.
    + destruct (_ && _).
      * unfold bind at 1. pose proof (json_reply_cases r w) as H.
        destruct (json_reply _ _ _ _ _ r w) as [[[]|e] w1]; [|exact H].
        destruct H as [doc ->]. cbn. split; [reflexivity|]. right. right. left.
        repeat split; try done. by exists doc.
      * cbn. split; [reflexivity|]. do 3 right. done.
  - cbn. split; [reflexivity|]. left. rewrite <- app_assoc. done.
Qed.

(** [handleRequest], step by step: what each of its three parts leaves. *)
Lemma handleRequest_cases (w : world) :
  let run := handleRequest JSON_parse Buffer_from_base64 Date_now getFileExtension
                           getFileType generateId backend data config w in
  match prepare JSON_parse Buffer_from_base64 getFileExtension getFileType backend
                data config w with
  | (Throw e, w1) => run = (Ok Finished, {| calls := calls w1; res := res w ++ failure e |})
  | (Ok prepared, w1) =>
      let call := workflows_run config (fst prepared) in
      let w2 := {| calls := calls w1 ++ [call]; res := res w |} in
      match backend (calls w1) call with
      | Throw e => run = (Ok Finished, {| calls := calls w2; res := res w ++ failure e |})
      | Ok r =>
          match respond JSON_parse Date_now generateId data config (snd prepared) r w2 with
          | (Ok l, w3) => run = (Ok l, w3)
          | (Throw e, _) => run = (Ok Finished, {| calls := calls w2; res := res w ++ failure e |})
          end
      end
  end.
Proof.
  cbn zeta.
  pose proof (prepare_res JSON_parse Buffer_from_base64 getFileExtension getFileType
                backend data config w) as Hres.
  destruct (prepare _ _ _ _ _ data config w) as [[prepared|e] w1] eqn:Hprepare;
    cbn [snd] in Hres.
  - destruct (backend (calls w1) _) as [r|e] eqn:Hbackend.
    + pose proof (respond_cases (snd prepared) r
                    {| calls := calls w1 ++ [workflows_run config (fst prepared)];
                       res := res w |}) as Hr.
      destruct (respond _ _ _ _ _ _ r _) as [[l|e] w3] eqn:Hrespond.
      * unfold handleRequest, try_catch, bind at 1 2. rewrite Hprepare.
        unfold bind at 1, fetch at 1. by rewrite Hbackend, Hres, Hrespond.
      * subst w3. unfold handleRequest, try_catch, bind at 1 2. rewrite Hprepare.
        unfold bind at 1, fetch at 1. rewrite Hbackend, Hres, Hrespond.
        unfold failure. cbn. by rewrite <- app_assoc.
    + unfold handleRequest, try_catch, bind at 1 2. rewrite Hprepare.
      unfold bind at 1, fetch at 1. rewrite Hbackend, Hres.
      unfold failure. cbn. by rewrite <- app_assoc.
  - unfold handleRequest, try_catch, bind at 1 2. rewrite Hprepare.
    unfold failure. cbn. by rewrite Hres, <- app_assoc.
Qed.

(** X1. [handleRequest] never throws, whatever the request, the
    configuration and the backend, and before it returns it does exactly one
    of five things to [res]: it forwards the status and the body of a failed
    workflow call; it sets the event-stream header and leaves the streaming
    listener; it sends one JSON chat response; it does nothing and leaves the
    collecting listeners; or it answers 500 with the message of the exception
    its [catch] caught. *)
Theorem handleRequest_answers_once (w : world) :
  exists l w',
    handleRequest JSON_parse Buffer_from_base64 Date_now getFileExtension getFileType
                  generateId backend data config w = (Ok l, w')
    /\ ((l = Finished
         /\ exists r, ok r = false
                      /\ res w' = res w ++ [ResStatus (status r); ResSend (text r)])
        \/ (exists r, l = OnStream r
                      /\ res w' = res w ++ [ResSetHeader "Content-Type" "text/event-stream"])
        \/ (l = Finished
            /\ exists doc, res w' = res w ++ [ResSetHeader "Content-Type" "application/json";
                                              ResJson doc])
        \/ (exists r, l = OnCollect r /\ res w' = res w)
        \/ (l = Finished /\ exists e, res w' = res w ++ failure e)).
Proof.
  pose proof (handleRequest_cases w) as H. cbn zeta in H.
  destruct (prepare _ _ _ _ _ data config w) as [[prepared|e] w1].
  - destruct (backend (calls w1) _) as [r|e].
    + pose proof (respond_cases (snd prepared) r
                    {| calls := calls w1 ++ [workflows_run config (fst prepared)];
                       res := res w |}) as Hr.
      destruct (respond _ _ _ _ _ _ r _) as [[l|e] w3].
      * exists l, w3. split; [exact H|]. cbn [res calls] in Hr.
        destruct Hr as [_ [(Hok & -> & Hres)|[(_ & _ & -> & Hres)|[(_ & _ & -> & doc & Hres)
                                                                  |(_ & _ & -> & Hres)]]]].
        -- left. split; [done|]. by exists r.
        -- right. left. by exists r.
        -- right. right. left. split; [done|]. by exists doc.
        -- do 3 right. left. by exists r.
      * eexists _, _. split; [exact H|]. do 4 right. split; [done|]. by exists e.
    + eexists _, _. split; [exact H|]. do 4 right. split; [done|]. by exists e.
  - eexists _, _. split; [exact H|]. do 4 right. split; [done|]. by exists e.
Qed.

(** X2. When anything throws before the request body is built (no
    [messages], an inline image the uploader rejects, an upload that fails),
    the handler answers 500 with the message of the exception and nothing
    else, and the workflow is not called: the only requests sent are the
    uploads made before the exception. *)
Theorem failure_while_preparing (w w1 : world) (e : error) :
  prepare JSON_parse Buffer_from_base64 getFileExtension getFileType backend data config w
  = (Throw e, w1) ->
  handleRequest JSON_parse Buffer_from_base64 Date_now getFileExtension getFileType
                generateId backend data config w
  = (Ok Finished, {| calls := calls w1; res := res w ++ failure e |})
  /\ exists uploads, calls w1 = calls w ++ uploads /\ Forall is_upload uploads.
Proof.
  intros Hprepare. split.
  - pose proof (handleRequest_cases w) as H. cbn zeta in H. by rewrite Hprepare in H.
  - pose proof (prepare_calls w) as H. by rewrite Hprepare in H.
Qed.

(** X3. When the call of /workflows/run itself fails (no answer from the
    backend), the handler answers 500 with the message of that failure and
    nothing else. *)
Theorem network_failure_answered (w w1 : world) (prepared : request_body * jsval)
    (e : error) :
  prepare JSON_parse Buffer_from_base64 getFileExtension getFileType backend data config w
  = (Ok prepared, w1) ->
  backend (calls w1) (workflows_run config (fst prepared)) = Throw e ->
  handleRequest JSON_parse Buffer_from_base64 Date_now getFileExtension getFileType
                generateId backend data config w
  = (Ok Finished, {| calls := calls w1 ++ [workflows_run config (fst prepared)];
                     res := res w ++ failure e |}).
Proof.
  intros Hprepare Hbackend.
  pose proof (handleRequest_cases w) as H. cbn zeta in H.
  by rewrite Hprepare, Hbackend in H.
Qed.

(** X4. In the blocking path, an answer with a 2xx status and a JSON
    content type whose body is not a JSON text is answered with 500 and the
    message of the parse error; no chat response is sent. *)
Theorem unreadable_reply_answered (w w1 : world) (prepared : request_body * jsval)
    (r : response) (type : string) (e : error) :
  prepare JSON_parse Buffer_from_base64 getFileExtension getFileType backend data config w
  = (Ok prepared, w1) ->
  backend (calls w1) (workflows_run config (fst prepared)) = Ok r ->
  ok r = true ->
  Js.truthy (snd prepared) = false ->
  content_type r = Some type ->
  includes type "application/json" = true ->
  json JSON_parse r = Throw e ->
  handleRequest JSON_parse Buffer_from_base64 Date_now getFileExtension getFileType
                generateId backend data config w
  = (Ok Finished, {| calls := calls w1 ++ [workflows_run config (fst prepared)];
                     res := res w ++ failure e |}).
Proof.
  intros Hprepare Hbackend Hok Hstream Htype Hjson Hparse.
  pose proof (handleRequest_cases w) as H. cbn zeta in H.
  rewrite Hprepare, Hbackend in H.
  unfold respond in H. rewrite Hok, Hstream, Htype in H.
  cbn [negb field Js.truthy Js.toString] in H.
  assert (String.eqb type "" = false) as Hne.
  { destruct type; [discriminate Hjson | reflexivity]. }
  rewrite Hne, Hjson in H. cbn [negb andb] in H.
  unfold json_reply, bind at 1 2 in H. rewrite Hparse in H. exact H.
Qed.

Lemma upload_modes (uploads : list http_call) :
  Forall is_upload uploads ->
  flat_map (fun c => match c with
                     | PostWorkflowsRun _ _ body => [body_response_mode body]
                     | PostFilesUpload _ _ _ => []
                     end) uploads = [].
Proof.
  induction 1 as [|c uploads Hc _ IH]; [reflexivity|].
  cbn [flat_map]. rewrite IH. by destruct c.
Qed.

(** X6. The listener [handleRequest] leaves matches the mode it asked the
    backend for: it leaves the streaming listener only after a workflow call
    with [response_mode] ["streaming"], and the collecting listeners only
    after one with ["blocking"]; in both cases that call is the only workflow
    call of the request. *)
Theorem listener_matches_mode (w : world) :
  let run := handleRequest JSON_parse Buffer_from_base64 Date_now getFileExtension
                           getFileType generateId backend data config w in
  match fst run with
  | Ok (OnStream _) => response_modes (snd run) = response_modes w ++ ["streaming"]
  | Ok (OnCollect _) => response_modes (snd run) = response_modes w ++ ["blocking"]
  | _ => True
  end.
Proof.
  cbn zeta.
  pose proof (handleRequest_cases w) as H. cbn zeta in H.
  pose proof (prepare_calls w) as (uploads & Hcalls & Hup).
  destruct (prepare _ _ _ _ _ data config w) as [[[requestBody stream]|e] w1] eqn:Hprepare;
    [|by rewrite H].
  apply prepare_mode in Hprepare. cbn [fst snd] in *.
  destruct (backend (calls w1) _) as [r|e]; [|by rewrite H].
  pose proof (respond_cases stream r
                {| calls := calls w1 ++ [workflows_run config requestBody]; res := res w |})
    as Hr.
  destruct (respond _ _ _ _ _ _ r _) as [[l|e] w3]; [|by rewrite H].
  rewrite H. cbn [fst snd calls res] in *.
  assert (response_modes w3 = response_modes w ++ [body_response_mode requestBody]) as Hmodes.
  { destruct Hr as [Hsame _]. unfold response_modes. rewrite Hsame, Hcalls.
    rewrite !flat_map_app, (upload_modes uploads Hup), app_nil_r. reflexivity. }
  destruct Hr as [_ [(_ & -> & _)|[(_ & Hs & -> & _)|[(_ & _ & -> & _)|(_ & Hs & -> & _)]]]];
    try exact I; by rewrite Hmodes, Hprepare, Hs.
Qed.

Lemma stream_calls (chunks : list (list byte)) (w : world) :
  calls (snd (stream JSON_parse Date_now data config chunks w)) = calls w.
Proof.
  assert (hoare (fun w' => calls w' = calls w)
                (stream JSON_parse Date_now data config chunks) (fun _ => True)) as H.
  { apply stream_keeps. intros w' op Hw'. exact Hw'. }
  by destruct (H w eq_refl).
Qed.

Lemma collect_calls (chunks : list (list byte)) (w : world) :
  calls (snd (collect JSON_parse Date_now generateId data config chunks w)) = calls w.
Proof.
  assert (hoare (fun w' => calls w' = calls w)
                (collect JSON_parse Date_now generateId data config chunks) (fun _ => True))
    as H.
  { apply collect_keeps. intros w' op Hw'. exact Hw'. }
  by destruct (H w eq_refl).
Qed.

(** X5. While a request is served, the requests to the backend come in
    this order: first the uploads, then at most one call of /workflows/run,
    which is the last request; the workflow is never called twice and nothing
    is uploaded after it was called. *)
Theorem uploads_then_one_call (w : world) :
  let after := calls (snd (serve JSON_parse Buffer_from_base64 Date_now getFileExtension
                                 getFileType generateId backend data config w)) in
  exists uploads,
    Forall is_upload uploads
    /\ (after = calls w ++ uploads
        \/ exists requestBody, after = calls w ++ uploads ++ [workflows_run config requestBody]).
Proof.
  cbn zeta.
  pose proof (handleRequest_cases w) as H. cbn zeta in H.
  pose proof (prepare_calls w) as (uploads & Hcalls & Hup).
  exists uploads. split; [exact Hup|]. unfold serve, bind.
  destruct (prepare _ _ _ _ _ data config w) as [[prepared|e] w1]; cbn [snd] in Hcalls.
  - right. exists (fst prepared). rewrite app_assoc, <- Hcalls.
    destruct (backend (calls w1) _) as [r|e]; [|by rewrite H].
    pose proof (respond_cases (snd prepared) r
                  {| calls := calls w1 ++ [workflows_run config (fst prepared)];
                     res := res w |}) as Hr.
    destruct (respond _ _ _ _ _ _ r _) as [[l|e] w3]; [|by rewrite H].
    rewrite H. destruct Hr as [Hsame _]. cbn [calls] in Hsame.
    destruct l; cbn [ret snd]; [done| |by rewrite collect_calls].
    pose proof (stream_calls (body r0) w3) as Hs.
    destruct (stream _ _ _ _ (body r0) w3) as [[st|e] w4]; cbn [snd ret] in *; congruence.
  - left. by rewrite H.
Qed.

End Answers.

Lemma failure_while_preparing_witness :
  Cases.handle (Scenario.backend (Scenario.answer "1"))
               (Scenario.ask false (VArr [Scenario.image Cases.blank]))
               (Scenario.settings None None None)
  = (Ok Finished, {| calls := []; res := failure (Error "Invalid base64 data") |}).
Proof.
  destruct (failure_while_preparing JsonText.parse (fun _ => []) 1700000000000
              (fun _ => VStr "png") (fun _ => VStr "image") (fun _ => "abc")
              (Scenario.backend (Scenario.answer "1"))
              (Scenario.ask false (VArr [Scenario.image Cases.blank]))
              (Scenario.settings None None None)
              start start (Error "Invalid base64 data")) as [H _];
    [vm_compute; reflexivity | exact H].
Defined.

Lemma network_failure_answered_witness :
  res (snd (Cases.handle Cases.unreachable (Scenario.ask false (VStr "hi"))
                         (Scenario.settings None None None)))
  = failure (FetchError "connect ECONNREFUSED").
Proof.
  unfold Cases.handle.
  erewrite (network_failure_answered JsonText.parse (fun _ => []) 1700000000000
              (fun _ => VStr "png") (fun _ => VStr "image") (fun _ => "abc")
              Cases.unreachable (Scenario.ask false (VStr "hi"))
              (Scenario.settings None None None) start);
    [ | vm_compute; reflexivity | reflexivity ].
  reflexivity.
Defined.

Lemma unreadable_reply_answered_witness :
  json JsonText.parse Cases.garbled = Throw (SyntaxError "Unexpected token in JSON")
  /\ res (snd (Cases.handle (Scenario.backend Cases.garbled) (Scenario.ask false (VStr "hi"))
                            (Scenario.settings None None None)))
     = failure (SyntaxError "Unexpected token in JSON").
Proof.
  split; [vm_compute; reflexivity|].
  unfold Cases.handle.
  erewrite (unreadable_reply_answered JsonText.parse (fun _ => []) 1700000000000
              (fun _ => VStr "png") (fun _ => VStr "image") (fun _ => "abc")
              (Scenario.backend Cases.garbled) (Scenario.ask false (VStr "hi"))
              (Scenario.settings None None None) start);
    [ | vm_compute; reflexivity | reflexivity | reflexivity | reflexivity | reflexivity
      | reflexivity | vm_compute; reflexivity ].
  reflexivity.
Defined.

(** ** The texts of the messages *)

Lemma user_part_text (userQuery : string) (content : jsval) (w : world) :
  user_part userQuery content w = (Ok (userQuery +:+ part_text content), w).
Proof.
  unfold user_part, part_text.
  destruct content as [| |b|n|s|items|fields]; cbn [Js.isString Js.toString];
    try reflexivity; try (cbn; by rewrite append_empty_r).
  - destruct b; cbn; by rewrite append_empty_r.
  - destruct (Js.truthy (VNum n)); cbn; by rewrite append_empty_r.
  - cbn [Js.truthy negb Js.get lift prop]. unfold bind at 1. cbn [ret].
    destruct (Js.eqStr (Js.assoc "type" fields) "text"); cbn [negb];
      [|cbn; by rewrite append_empty_r].
    unfold bind. cbn [ret].
    destruct (Js.assoc "text" fields); cbn [Js.isString Js.toString ret];
      try reflexivity; by rewrite append_empty_r.
Qed.

Lemma system_part_text (systemPrompt : string) (content : jsval) (w : world) :
  part_typed content = true ->
  system_part systemPrompt content w = (Ok (systemPrompt +:+ part_text content), w).
Proof.
  unfold system_part, part_typed, part_text.
  destruct content as [| |b|n|s|items|fields]; cbn [Js.isString Js.toString];
    try discriminate; try reflexivity; try (intros _; cbn; by rewrite append_empty_r).
  cbn [Js.get lift prop]. unfold bind at 1. cbn [ret].
  destruct (Js.eqStr (Js.assoc "type" fields) "text"); cbn [negb orb];
    [|intros _; cbn; by rewrite append_empty_r].
  unfold bind. cbn [ret]. by destruct (Js.assoc "text" fields).
Qed.

Lemma parts_text {body : string -> jsval -> M string} (parts : list jsval) :
  (forall acc content w, In content parts ->
     body acc content w = (Ok (acc +:+ part_text content), w)) ->
  forall acc w,
    forOf parts body acc w = (Ok (acc +:+ join_texts (List.map part_text parts)), w).
Proof.
  induction parts as [|content parts IH]; intros Hbody acc w; cbn [forOf List.map].
  - cbn. by rewrite append_empty_r.
  - unfold bind. rewrite Hbody by (by left).
    rewrite IH by (intros; apply Hbody; by right).
    cbn [join_texts fold_right]. by rewrite append_assoc.
Qed.

Lemma user_message_text (userQuery : string) (message : jsval) (w : world) :
  present message = true ->
  user_message userQuery message w = (Ok (userQuery +:+ message_text "user" message), w).
Proof.
  intros Hm. unfold user_message, message_text.
  rewrite !get_present by done. cbn [lift]. unfold bind at 1. cbn [ret].
  destruct (Js.eqStr (prop message "role") "user"); cbn [negb];
    [|cbn; by rewrite append_empty_r].
  unfold bind at 1. cbn [ret].
  destruct (prop message "content") as [| | | | |parts|]; try reflexivity.
  apply parts_text. intros. apply user_part_text.
Qed.

Lemma system_message_text (systemPrompt : string) (message : jsval) (w : world) :
  message_typed message = true ->
  system_message systemPrompt message w
  = (Ok (systemPrompt +:+ message_text "system" message), w).
Proof.
  intros [Hm Hparts]%andb_prop. unfold system_message, message_text.
  rewrite !get_present by done. cbn [lift]. unfold bind at 1. cbn [ret].
  destruct (Js.eqStr (prop message "role") "system"); cbn [negb];
    [|cbn; by rewrite append_empty_r].
  unfold bind at 1. cbn [ret].
  destruct (prop message "content") as [| | | | |parts|]; try reflexivity.
  apply parts_text. intros acc content w' Hin. apply system_part_text.
  rewrite forallb_forall in Hparts. by apply Hparts.
Qed.

Lemma messages_text {body : string -> jsval -> M string} (role : string)
    (messages : list jsval) :
  (forall acc message w, In message messages ->
     body acc message w = (Ok (acc +:+ message_text role message), w)) ->
  forall acc w,
    forOf messages body acc w = (Ok (acc +:+ texts role messages), w).
Proof.
  unfold texts.
  induction messages as [|message messages IH]; intros Hbody acc w; cbn [forOf List.map].
  - cbn. by rewrite append_empty_r.
  - unfold bind. rewrite Hbody by (by left).
    rewrite IH by (intros; apply Hbody; by right).
    cbn [join_texts fold_right]. by rewrite append_assoc.
Qed.

(** X8. The loop over the user messages never throws on messages other
    than [undefined] and [null], does nothing to the world, and collects the
    texts of all messages of role [user], in order, not of the last one only:
    for a content array, each string and each [text] part whose text is a
    string, a line feed after each, anything else (an image, [null], a text
    part whose text is no string) being skipped; for any other content, the
    content as a string and a line feed. Messages of other roles add
    nothing. *)
Theorem user_query_text (messages : list jsval) (userQuery : string) (w : world) :
  forallb present messages = true ->
  forOf messages user_message userQuery w
  = (Ok (userQuery +:+ texts "user" messages), w).
Proof.
  intros Hm. apply messages_text. intros acc message w' Hin.
  apply user_message_text. rewrite forallb_forall in Hm. by apply Hm.
Qed.

Lemma user_query_text_witness :
  forallb present Cases.talk = true
  /\ forOf Cases.talk user_message "" start
     = (Ok ("What is" +:+ LF +:+ "this?" +:+ LF +:+ "Sure?" +:+ LF), start).
Proof.
  split; [reflexivity|].
  exact (user_query_text Cases.talk "" start eq_refl).
Defined.

(** X7. On messages none of which is [undefined] or [null] and in whose
    content arrays every part is a string or an object whose [text], when its
    type is [text], is a string, the loop over the system messages does not
    throw, does nothing to the world, and collects the texts of all messages
    of role [system] in order, by the same rule as the loop over the user
    messages. *)
Theorem system_prompt_text (messages : list jsval) (systemPrompt : string) (w : world) :
  forallb message_typed messages = true ->
  forOf messages system_message systemPrompt w
  = (Ok (systemPrompt +:+ texts "system" messages), w).
Proof.
  intros Hm. apply messages_text. intros acc message w' Hin.
  apply system_message_text. rewrite forallb_forall in Hm. by apply Hm.
Qed.

Lemma system_prompt_text_witness :
  forallb message_typed Cases.talk = true
  /\ forOf Cases.talk system_message "" start = (Ok ("Be brief." +:+ LF), start).
Proof.
  split; [reflexivity|].
  exact (system_prompt_text Cases.talk "" start eq_refl).
Defined.

Lemma get_of_object (data : jsval) (k : string) (items : list jsval) :
  prop data k = VArr items -> forall k', Js.get data k' = Ok (prop data k').
Proof. unfold prop. by destruct data. Qed.

(** X9. For a request whose [messages] is an array of messages of the data
    model, everything up to the request body is this: the images of all
    messages are turned into file inputs, one after the other, and if that
    returns, the body has as [inputs] the input variables set from the trimmed
    texts of the system messages and of the user messages on top of the file
    inputs, as [response_mode] ["streaming"] when [stream] is truthy and
    ["blocking"] otherwise ([stream] being [false] when the request has none),
    the user identifier as [user], and no [files]. Nothing else is sent and
    nothing else can throw. *)
Theorem prepare_spec
    (JSON_parse : string -> option jsval) (Buffer_from_base64 : string -> list byte)
    (getFileExtension : string -> jsval) (getFileType : jsval -> jsval)
    (backend : list http_call -> http_call -> outcome response)
    (data : jsval) (config : config) (messages : list jsval) (w : world) :
  prop data "messages" = VArr messages ->
  forallb message_ok messages = true ->
  forallb message_typed messages = true ->
  let userId := userId_of config (prop data "user") in
  let stream := if Js.isUndefined (prop data "stream") then VBool false
                else prop data "stream" in
  prepare JSON_parse Buffer_from_base64 getFileExtension getFileType backend data config w
  = bind (file_inputs JSON_parse Buffer_from_base64 getFileExtension getFileType backend
                      config userId (image_urls messages) [])
         (fun files =>
            ret ({| body_inputs :=
                      set_inputs config (trim (texts "system" messages))
                                 (trim (trim (texts "user" messages))) (inputs_of files);
                    body_response_mode :=
                      if Js.truthy stream then "streaming" else "blocking";
                    body_user := userId;
                    body_files := [] |}, stream)) w.
Proof.
  intros Hmessages Hok Htyped. cbn zeta. unfold prepare.
  rewrite !(get_of_object data "messages" messages Hmessages), Hmessages.
  do 4 (unfold bind at 1; cbn [lift Js.get iterate ret]).
  change (∅ : gmap string jsval) with (inputs_of []).
  unfold bind at 1. rewrite scan_messages_spec by done. unfold bind.
  destruct (file_inputs _ _ _ _ _ _ _ _ _ w) as [[files|e] w1]; [|reflexivity].
  cbn [ret]. rewrite forallb_forall in Htyped.
  rewrite (messages_text "system" messages); cycle 1.
  { intros acc message w' Hin. apply system_message_text. by apply Htyped. }
  rewrite (messages_text "user" messages); cycle 1.
  { intros acc message w' Hin. apply user_message_text.
    by destruct (andb_prop _ _ (Htyped message Hin)). }
  rewrite !append_empty_l. reflexivity.
Qed.

Lemma prepare_spec_witness :
  match fst (Cases.prepared (Scenario.backend (Scenario.answer "1"))
                            (Scenario.pictures true)
                            (Scenario.settings None None None)) with
  | Ok (requestBody, stream) =>
      read (body_inputs requestBody) "text_input" = VStr "compare these"
      /\ read (body_inputs requestBody) "file_input"
         = VArr [local_file (VStr "file-1") (VStr "image");
                 remote_url "https://cdn.example/cat.png" (VStr "image")]
      /\ body_response_mode requestBody = "streaming"
  | Throw _ => False
  end.
Proof.
  unfold Cases.prepared.
  pose proof (prepare_spec JsonText.parse (fun _ => []) (fun _ => VStr "png")
                (fun _ => VStr "image") (Scenario.backend (Scenario.answer "1"))
                (Scenario.pictures true) (Scenario.settings None None None)
                Scenario.album start eq_refl eq_refl eq_refl) as H.
  cbn zeta in H. rewrite H. vm_compute. repeat split.
Defined.

Lemma set_inputs_keeps_files_witness :
  let config := Scenario.settings (Some "system") (Some "query") None in
  let files := [remote_url "https://cdn.example/cat.png" (VStr "image")] in
  read (set_inputs config "Be brief." "Hi" (inputs_of files)) "file_input" = VArr files.
Proof.
  cbn zeta.
  rewrite (set_inputs_keeps_files (Scenario.settings (Some "system") (Some "query") None)
             "Be brief." "Hi");
    [reflexivity | discriminate | discriminate].
Defined.

(** ** The outcomes of an upload *)

Section Uploader.

Context (JSON_parse : string -> option jsval)
        (Buffer_from_base64 : string -> list byte)
        (backend : list http_call -> http_call -> outcome response)
        (config : config) (userId : jsval).

(** X11. When the backend answers an upload with a status outside
    200..299, the uploader throws an error whose message is the fixed prefix
    followed by the status, the status text and the body of that answer,
    having sent this one upload and nothing else. *)
Theorem upload_rejected (s : string) (w : world) (r : response) :
  data_uri_shape s -> single_line s ->
  (forall c, is_upload c -> backend (calls w) c = Ok r) ->
  ok r = false ->
  let run := uploadFileToDify JSON_parse Buffer_from_base64 backend s config userId w in
  fst run = Throw (Error ("文件上传失败: " +:+ Js.decimal (status r) +:+ " "
                          +:+ statusText r +:+ ": " +:+ text r))
  /\ exists c, is_upload c /\ snd run = {| calls := calls w ++ [c]; res := res w |}.
Proof.
  intros Hshape Hline Hbackend Hok. cbn zeta. unfold uploadFileToDify.
  destruct (DataUri.exec s) as [[m p]|] eqn:Hexec;
    [|by destruct (exec_None s Hexec)].
  unfold bind, fetch. rewrite Hbackend by exact I. rewrite Hok. cbn.
  split; [reflexivity|]. eexists. split; [|reflexivity]. exact I.
Qed.

(** X12. When the backend answers an upload with a 2xx status and a JSON
    document other than [null], the uploader returns the [id] of that
    document as it is: [undefined] when the document has none, without any
    check. *)
Theorem upload_returns_id (s : string) (w : world) (r : response) (result : jsval) :
  data_uri_shape s -> single_line s ->
  (forall c, is_upload c -> backend (calls w) c = Ok r) ->
  ok r = true ->
  json JSON_parse r = Ok result ->
  present result = true ->
  fst (uploadFileToDify JSON_parse Buffer_from_base64 backend s config userId w)
  = Ok (prop result "id").
Proof.
  intros Hshape Hline Hbackend Hok Hjson Hresult. unfold uploadFileToDify.
  destruct (DataUri.exec s) as [[m p]|] eqn:Hexec;
    [|by destruct (exec_None s Hexec)].
  unfold bind, fetch. rewrite Hbackend by exact I. rewrite Hok, Hjson. cbn [negb lift ret].
  by rewrite (get_present result "id" Hresult).
Qed.

End Uploader.

Lemma upload_rejected_witness :
  ok Cases.too_large = false
  /\ fst (Cases.upload Cases.refusing Cases.dot)
     = Throw (Error ("文件上传失败: " +:+ "413 Payload Too Large: file too large")).
Proof.
  split; [reflexivity|].
  destruct (upload_rejected JsonText.parse (fun _ => []) Cases.refusing
              (Scenario.settings None None None) (VStr "apiuser")
              Cases.dot start Cases.too_large) as [H _].
  - by exists "image/png", "AAAA".
  - reflexivity.
  - intros [] Hc; [reflexivity | destruct Hc].
  - reflexivity.
  - exact H.
Defined.

Lemma upload_returns_id_witness :
  json JsonText.parse Cases.stored = Ok (VObj [("id", VStr "file-1")])
  /\ fst (Cases.upload (Scenario.backend (Scenario.answer "1")) Cases.dot)
     = Ok (VStr "file-1").
Proof.
  split; [vm_compute; reflexivity|].
  apply (upload_returns_id JsonText.parse (fun _ => [])
           (Scenario.backend (Scenario.answer "1"))
           (Scenario.settings None None None) (VStr "apiuser")
           Cases.dot start Cases.stored (VObj [("id", VStr "file-1")])).
  - by exists "image/png", "AAAA".
  - reflexivity.
  - intros [] Hc; [reflexivity | destruct Hc].
  - reflexivity.
  - vm_compute; reflexivity.
  - reflexivity.
Defined.

(** ** A JSON reply without outputs *)

(** X13. In the blocking path, a JSON answer other than [null] that
    carries no [data], or whose [data.outputs] is absent, [null] or otherwise
    falsy, is still answered with a chat response: its content is the empty
    string and its [usage] is the empty string, not an object. *)
Theorem json_reply_without_outputs
    (JSON_parse : string -> option jsval) (Date_now : Z) (generateId : unit -> string)
    (data stream : jsval) (config : config) (r : response) (w : world)
    (type : string) (jsonData model : jsval) :
  ok r = true ->
  Js.truthy stream = false ->
  content_type r = Some type ->
  includes type "application/json" = true ->
  json JSON_parse r = Ok jsonData ->
  present jsonData = true ->
  Js.truthy (prop (prop jsonData "data") "outputs") = false ->
  Js.get data "model" = Ok model ->
  respond JSON_parse Date_now generateId data config stream r w
  = (Ok Finished,
     {| calls := calls w;
        res := res w ++ [ResSetHeader "Content-Type" "application/json";
                         ResJson (completion Date_now generateId model (VStr "") (VStr ""))] |}).
Proof.
  intros Hok Hstream Htype Hjson Hparse Hpresent Houtputs Hmodel.
  unfold respond. rewrite Hok, Hstream, Htype. cbn [negb field Js.truthy Js.toString].
  assert (String.eqb type "" = false) as ->.
  { destruct type; [discriminate Hjson | reflexivity]. }
  cbn [negb andb]. rewrite Hjson.
  unfold json_reply, bind. rewrite Hparse. cbn [lift ret].
  rewrite (get_present jsonData "data" Hpresent). cbn [lift ret].
  set (d := prop jsonData "data") in *.
  destruct (Js.truthy d) eqn:Hd.
  - rewrite (get_truthy d "outputs" Hd). cbn [lift ret].
    rewrite Houtputs. cbn [andb ret]. rewrite Hmodel.
    cbn. by rewrite <- app_assoc.
  - cbn [lift ret andb]. rewrite Hmodel.
    cbn. by rewrite <- app_assoc.
Qed.

Lemma json_reply_without_outputs_witness :
  res (snd (respond JsonText.parse 1700000000000 (fun _ => "abc")
                    (Scenario.ask false (VStr "hi"))
                    (Scenario.settings None None (Some "answer")) (VBool false)
                    Cases.no_outputs start))
  = [ResSetHeader "Content-Type" "application/json";
     ResJson (completion 1700000000000 (fun _ => "abc") (VStr "dify") (VStr "") (VStr ""))].
Proof.
  erewrite (json_reply_without_outputs JsonText.parse 1700000000000 (fun _ => "abc")
              (Scenario.ask false (VStr "hi")) (VBool false)
              (Scenario.settings None None (Some "answer")) Cases.no_outputs start);
    [ | reflexivity | reflexivity | reflexivity | reflexivity | vm_compute; reflexivity
      | reflexivity | reflexivity | reflexivity ].
  reflexivity.
Defined.

(** ** The streaming path: what reaches the client *)

Section Silence.

Context (JSON_parse : string -> option jsval) (Date_now : Z)
        (data : jsval) (config : config).

Lemma lines_keep (I : bool -> world -> Prop) :
  (forall ended chunkObj w, I ended w ->
     match dispatch Date_now data config ended chunkObj w with
     | (Ok ended', w') => I ended' w'
     | (Throw _, w') => I ended w'
     end) ->
  forall lines ended w, I ended w ->
    match forOf lines (on_line JSON_parse Date_now data config) ended w with
    | (Ok ended', w') => I ended' w'
    | (Throw _, w') => exists ended', I ended' w'
    end.
Proof.
  intros Hdispatch. induction lines as [|raw lines IH]; intros ended w Hw; cbn [forOf].
  - exact Hw.
  - unfold bind.
    assert (match on_line JSON_parse Date_now data config ended raw w with
            | (Ok ended', w') => I ended' w'
            | (Throw _, w') => I ended w'
            end) as Hstep.
    { unfold on_line.
      destruct (startsWith (trim raw) "data:"); cbn [negb]; [|exact Hw].
      destruct (startsWith (trim (slice 5 (trim raw))) "{"); cbn [negb]; [|exact Hw].
      destruct (JSON_parse _); [by apply Hdispatch | exact Hw]. }
    destruct (on_line _ _ _ _ ended raw w) as [[ended1|err] w1].
    + by apply IH.
    + by exists ended.
Qed.

Lemma dispatch_silent_or_ended (w0 : world) (ended : bool) (chunkObj : jsval) (w : world) :
  silent_or_ended w0 ended w ->
  match dispatch Date_now data config ended chunkObj w with
  | (Ok ended', w') => silent_or_ended w0 ended' w'
  | (Throw _, w') => silent_or_ended w0 ended w'
  end.
Proof.
  intros Hw. unfold dispatch.
  unfold bind at 1. destruct (Js.get chunkObj "event") as [event|e]; cbn [lift ret throw];
    [|exact Hw].
  repeat (match goal with
          | |- context [if Js.eqStr event ?s then _ else _] =>
              destruct (Js.eqStr event s); [try exact Hw|]
          end); try exact Hw.
  - unfold bind at 1. destruct (Js.get chunkObj "data") as [d|e]; cbn [lift ret throw];
      [|exact Hw].
    unfold bind at 1. destruct (Js.get d "outputs") as [o|e]; cbn [lift ret throw];
      [|exact Hw].
    unfold bind at 1. destruct (select_output config o) as [r|e]; cbn [lift ret throw];
      [|exact Hw].
    unfold bind at 1. destruct (Js.get chunkObj "created_at") as [c|e]; cbn [lift ret throw];
      [|exact Hw].
    destruct ended; cbn [negb]; [exact Hw|].
    unfold bind at 1. destruct (Js.get data "model") as [m|e]; cbn [lift ret throw];
      [|exact Hw].
    unfold silent_or_ended in *. unfold bind, res_do, ret. cbn [res calls].
    rewrite Hw. eexists [_; _]. by rewrite <- !app_assoc.
  - unfold bind at 1. destruct (Js.get chunkObj "message") as [m|e]; cbn [lift ret throw];
      [|exact Hw].
    unfold silent_or_ended in *.
    destruct ended; cbn [negb]; unfold bind, res_do, ret; cbn [res calls].
    + destruct Hw as [ops ->]. eexists (ops ++ [ResEnd; _; _]). by rewrite <- !app_assoc.
    + rewrite Hw. eexists [_; _; _]. by rewrite <- !app_assoc.
Qed.

(** X14. The streaming listener writes nothing before a terminal frame:
    as long as its flag is not set, nothing at all was done to [res], however
    many [workflow_started], [node_started], [node_finished], [ping] or
    unknown frames came; so a stream without a [workflow_finished] or [error]
    frame leaves the response of the client open and empty. Once the flag is
    set, the last thing done to [res] is [res.end()]. *)
Theorem silent_until_ended (chunks : list (list byte)) (w : world) :
  let run := stream JSON_parse Date_now data config chunks w in
  match fst run with
  | Ok st =>
      if isResponseEnded st then exists ops, res (snd run) = res w ++ ops ++ [ResEnd]
      else res (snd run) = res w
  | Throw _ =>
      res (snd run) = res w \/ exists ops, res (snd run) = res w ++ ops ++ [ResEnd]
  end.
Proof.
  cbn zeta. rewrite stream_join. unfold on_text. cbn [buffer isResponseEnded listening_start].
  pose proof (lines_keep (silent_or_ended w) (dispatch_silent_or_ended w)
                (removelast (split nl ("" +:+ join_texts (List.map Buffer.toString chunks))))
                false w eq_refl) as H.
  unfold bind.
  destruct (forOf _ _ false w) as [[ended|err] w1]; cbn [fst snd ret isResponseEnded].
  - exact H.
  - destruct H as [[|] H]; [right | left]; exact H.
Qed.

End Silence.

Lemma sentinel_once_witness :
  let run := stream JsonText.parse 1700000000000 (Scenario.ask true (VStr "hi"))
                    (Scenario.settings None None (Some "answer"))
                    [Scenario.line (Scenario.finished "hi"); Scenario.line Scenario.failed]
                    start in
  (sentinels (res (snd run)) <= 1)%nat
  /\ forall st, fst run = Ok st ->
       sentinels (res (snd run)) = if isResponseEnded st then 1%nat else 0%nat.
Proof.
  exact (sentinel_once JsonText.parse 1700000000000 (Scenario.ask true (VStr "hi"))
           (Scenario.settings None None (Some "answer"))
           [Scenario.line (Scenario.finished "hi"); Scenario.line Scenario.failed]
           start eq_refl).
Defined.

Lemma dispatch_after_end_witness :
  snd (dispatch 1700000000000 (Scenario.ask true (VStr "hi"))
                (Scenario.settings None None None) true Cases.finished_empty start)
  = start.
Proof.
  exact (dispatch_after_end 1700000000000 (Scenario.ask true (VStr "hi"))
           (Scenario.settings None None None) Cases.finished_empty start eq_refl).
Defined.

(** X17. A [workflow_finished] frame without outputs makes the streaming
    listener throw a TypeError before anything is done to [res], whatever the
    flag: when the frame has no [data], and when [OUTPUT_VARIABLE] is
    configured and [data.outputs] is absent or [null]. *)
Theorem finished_frame_without_outputs
    (Date_now : Z) (data : jsval) (config : config)
    (ended : bool) (chunkObj : jsval) (w : world) :
  Js.eqStr (prop chunkObj "event") "workflow_finished" = true ->
  present (prop (prop chunkObj "data") "outputs") = false ->
  present (prop chunkObj "data") = false \/ configured (OUTPUT_VARIABLE config) = true ->
  exists what,
    dispatch Date_now data config ended chunkObj w = (Throw (TypeError what), w).
Proof.
  intros Hevent Houtputs Hwhy. unfold dispatch.
  assert (present chunkObj = true) as Hchunk.
  { destruct chunkObj; try reflexivity; discriminate Hevent. }
  rewrite (get_present chunkObj "event" Hchunk). cbn [lift]. unfold bind at 1. cbn [ret].
  destruct (prop chunkObj "event") as [| | | |event| |]; try discriminate Hevent.
  cbn [Js.eqStr] in *. apply String.eqb_eq in Hevent as ->. cbn [String.eqb Ascii.eqb].
  change (String.eqb "workflow_finished" "workflow_started") with false.
  change (String.eqb "workflow_finished" "node_started") with false.
  change (String.eqb "workflow_finished" "node_finished") with false.
  change (String.eqb "workflow_finished" "workflow_finished") with true. cbv iota.
  rewrite (get_present chunkObj "data" Hchunk). cbn [lift]. unfold bind at 1. cbn [ret].
  set (d := prop chunkObj "data") in *.
  destruct (present d) eqn:Hd.
  - destruct Hwhy as [|Hconfigured]; [discriminate|].
    rewrite (get_present d "outputs" Hd). cbn [lift]. unfold bind at 1. cbn [ret].
    unfold select_output. rewrite Hconfigured.
    destruct (prop d "outputs"); try discriminate Houtputs; by eexists.
  - destruct d; try discriminate Hd; by eexists.
Qed.

Lemma finished_frame_without_outputs_witness :
  exists what,
    dispatch 1700000000000 (Scenario.ask true (VStr "hi"))
             (Scenario.settings None None (Some "answer")) false Cases.finished_empty start
    = (Throw (TypeError what), start).
Proof.
  apply (finished_frame_without_outputs 1700000000000 (Scenario.ask true (VStr "hi"))
           (Scenario.settings None None (Some "answer")) false Cases.finished_empty start).
  - reflexivity.
  - reflexivity.
  - right. reflexivity.
Defined.

(** ** The last line of a stream *)

Lemma includes_LF_cons (c : ascii) (s : string) :
  includes (String c s) LF = Ascii.eqb nl c || includes s LF.
Proof.
  cbn [includes startsWith LF]. by destruct s; rewrite andb_true_r.
Qed.

Lemma complete_nil (s : string) :
  includes s LF = false -> complete s = [] /\ partial s = s.
Proof.
  induction s as [|c s IH]; [by split|].
  rewrite includes_LF_cons, complete_cons, partial_cons, Ascii.eqb_sym.
  intros [Hc Hs]%orb_false_elim. rewrite Hc. destruct (IH Hs) as [-> ->]. by split.
Qed.

Lemma includes_LF_app (s t : string) :
  includes (s +:+ t) LF = includes s LF || includes t LF.
Proof.
  induction s as [|c s IH].
  - rewrite append_empty_l. cbn [includes startsWith LF orb]. reflexivity.
  - by rewrite append_cons, !includes_LF_cons, IH, orb_assoc.
Qed.

Lemma partial_no_LF (s : string) : includes (partial s) LF = false.
Proof.
  induction s as [|c s IH]; [reflexivity|].
  rewrite partial_cons. destruct (Ascii.eqb c nl) eqn:Hc; [exact IH|].
  destruct (complete s); [|exact IH].
  by rewrite includes_LF_cons, Ascii.eqb_sym, Hc, IH.
Qed.

Lemma join_texts_app (a b : list string) :
  join_texts (a ++ b) = join_texts a +:+ join_texts b.
Proof.
  induction a as [|t a IH]; [reflexivity|].
  cbn [app join_texts fold_right]. fold (join_texts (a ++ b)) (join_texts a).
  by rewrite IH, append_assoc.
Qed.

(** X18. What follows the last line feed of a stream is never processed:
    a last chunk whose text has no line feed changes neither what is done to
    [res] nor the flag nor the exception, it only stays in the buffer. A
    terminal frame that the backend does not end with a line feed is lost. *)
Theorem unterminated_line_dropped
    (JSON_parse : string -> option jsval) (Date_now : Z) (data : jsval) (config : config)
    (chunks : list (list byte)) (tail : list byte) (w : world) :
  includes (Buffer.toString tail) LF = false ->
  let whole := stream JSON_parse Date_now data config (chunks ++ [tail]) w in
  let cut := stream JSON_parse Date_now data config chunks w in
  snd whole = snd cut
  /\ match fst whole, fst cut with
     | Ok st, Ok st' =>
         isResponseEnded st = isResponseEnded st'
         /\ buffer st = buffer st' +:+ Buffer.toString tail
     | Throw e, Throw e' => e = e'
     | _, _ => False
     end.
Proof.
  intros Htail. cbn zeta. rewrite !stream_join.
  rewrite List.map_app, join_texts_app. cbn [List.map join_texts fold_right].
  rewrite append_empty_r.
  set (text := join_texts (List.map Buffer.toString chunks)).
  unfold on_text. cbn [buffer isResponseEnded listening_start]. rewrite !append_empty_l.
  change (removelast (split nl ?x)) with (complete x).
  change (List.last (split nl ?x) "") with (partial x).
  destruct (complete_partial_app text (Buffer.toString tail)) as [-> ->].
  assert (includes (partial text +:+ Buffer.toString tail) LF = false) as Hno.
  { by rewrite includes_LF_app, partial_no_LF, Htail. }
  destruct (complete_nil _ Hno) as [-> ->]. rewrite app_nil_r.
  unfold bind. destruct (forOf (complete text) _ false w) as [[ended|e] w1]; by cbn.
Qed.

Lemma unterminated_line_dropped_witness :
  includes (Buffer.toString (Scenario.bytes (Scenario.finished "hi"))) LF = false
  /\ snd (stream JsonText.parse 1700000000000 (Scenario.ask true (VStr "hi"))
                 (Scenario.settings None None (Some "answer"))
                 [Scenario.bytes (Scenario.finished "hi")] start)
     = start.
Proof.
  assert (includes (Buffer.toString (Scenario.bytes (Scenario.finished "hi"))) LF = false)
    as Htail by (vm_compute; reflexivity).
  split; [exact Htail|].
  pose proof (unterminated_line_dropped JsonText.parse 1700000000000
                (Scenario.ask true (VStr "hi")) (Scenario.settings None None (Some "answer"))
                [] (Scenario.bytes (Scenario.finished "hi")) start Htail) as H.
  cbn zeta in H. destruct H as [H _]. exact H.
Defined.

Lemma stream_whole_witness :
  stream JsonText.parse 1700000000000 (Scenario.ask true (VStr "hi"))
         (Scenario.settings None None (Some "answer")) Cases.pieces start
  = stream JsonText.parse 1700000000000 (Scenario.ask true (VStr "hi"))
           (Scenario.settings None None (Some "answer")) [Buffer.concat Cases.pieces] start.
Proof.
  apply (stream_whole JsonText.parse 1700000000000 (Scenario.ask true (VStr "hi"))
           (Scenario.settings None None (Some "answer")) Cases.pieces start).
  unfold Cases.pieces. cbn [removelast].
  constructor; [vm_compute; reflexivity|].
  constructor; [vm_compute; reflexivity|].
  constructor.
Defined.

(** ** The collecting path *)

Section Collecting.

Context (JSON_parse : string -> option jsval) (Date_now : Z)
        (generateId : unit -> string) (data : jsval) (config : config).

Lemma collect_line_world (st : collect_state) (raw : string) (w : world) :
  match collect_line JSON_parse config st raw w with
  | (Ok r, w') => w' = w /\ (c_hasError st = true -> c_hasError (fst r) = true)
  | (Throw _, w') => w' = w
  end.
Proof.
  unfold collect_line.
  destruct (String.eqb (trim raw) ""); [by split|].
  destruct (negb _); [by split|].
  destruct (JSON_parse _) as [chunkObj|]; [|by split].
  unfold bind at 1. destruct (Js.get chunkObj "event") as [event|e]; cbn [lift ret throw];
    [|reflexivity].
  destruct (Js.eqStr event "workflow_finished").
  - repeat (unfold bind at 1;
            match goal with
            | |- context [lift ?o w] => destruct o as [?|?]; cbn [lift ret throw]
            end; [|reflexivity]).
    by split.
  - destruct (Js.eqStr event "ping"); [by split|].
    destruct (Js.eqStr event "error"); by split.
Qed.

Lemma collect_lines_world (lines : list string) (st : collect_state) (w : world) :
  match forBreak lines (collect_line JSON_parse config) st w with
  | (Ok st', w') => w' = w /\ (c_hasError st = true -> c_hasError st' = true)
  | (Throw _, w') => w' = w
  end.
Proof.
  revert st. induction lines as [|raw lines IH]; intros st; cbn [forBreak].
  - by split.
  - unfold bind. pose proof (collect_line_world st raw w) as Hline.
    destruct (collect_line JSON_parse config st raw w) as [[[st1 b]|e] w1];
      [|exact Hline].
    destruct Hline as [-> Herr]. cbn [fst snd] in *.
    destruct b; cbn [ret]; [by split|].
    specialize (IH st1).
    destruct (forBreak lines _ st1 w) as [[st2|e] w2]; [|exact IH].
    destruct IH as [-> Herr']. split; [done|]. auto.
Qed.

Lemma collect_data_world (chunks : list (list byte)) (st : collect_state) (w : world) :
  match forOf chunks (collect_data JSON_parse config) st w with
  | (Ok st', w') => w' = w /\ (c_hasError st = true -> c_hasError st' = true)
  | (Throw _, w') => w' = w
  end.
Proof.
  revert st. induction chunks as [|chunk chunks IH]; intros st; cbn [forOf].
  - by split.
  - unfold bind at 1. unfold collect_data at 1, bind at 1.
    match goal with
    | |- context [forBreak ?ls ?f ?s w] =>
        pose proof (collect_lines_world ls s w) as Hlines;
        destruct (forBreak ls f s w) as [[st1|e] w1]
    end; [|exact Hlines].
    destruct Hlines as [-> Herr]. cbn [ret c_hasError] in *.
    match goal with
    | |- context [forOf chunks _ ?s w] =>
        specialize (IH s); destruct (forOf chunks _ s w) as [[st2|e] w2]
    end; [|exact IH].
    destruct IH as [-> Herr']. cbn [c_hasError] in *. split; [done|]. auto.
Qed.

(** X20. The collecting path sends nothing to the backend and does
    nothing to [res] while the body arrives; at its end it answers once: with
    status 500 and a fixed error document, or with the JSON content type and a
    chat response written with two spaces of indentation. When a listener
    throws, nothing was done to [res]. *)
Theorem collect_answers_once (chunks : list (list byte)) (w : world) :
  match collect JSON_parse Date_now generateId data config chunks w with
  | (Ok _, w') =>
      calls w' = calls w
      /\ (res w' = res w ++ collect_failure
          \/ exists model result usageData,
               res w' = res w ++ [ResSetHeader "Content-Type" "application/json";
                                  ResSend (Js.stringify2 ""
                                             (completion Date_now generateId
                                                         model result usageData))])
  | (Throw _, w') => w' = w
  end.
Proof.
  unfold collect, bind at 1.
  match goal with
  | |- context [forOf chunks ?f ?s w] =>
      pose proof (collect_data_world chunks s w) as Hw;
      destruct (forOf chunks f s w) as [[st|e] w1]
  end; [|exact Hw].
  destruct Hw as [-> _].
  unfold collect_end. destruct (c_hasError st).
  - cbn. split; [reflexivity|]. left. by rewrite <- app_assoc.
  - unfold bind at 1. destruct (Js.get data "model") as [model|e]; cbn [lift ret throw];
      [|reflexivity].
    cbn. split; [reflexivity|]. right. eexists _, _, _. by rewrite <- app_assoc.
Qed.

(** X21. In the collecting path an [error] frame decides the answer: once
    the error flag is set after some chunks, whatever chunks follow, also a
    [workflow_finished] frame with a result, the answer at the end of the body
    is status 500 with the fixed error document and nothing else. *)
Theorem collect_error_final (before after : list (list byte)) (st : collect_state)
    (w : world) :
  fst (forOf before (collect_data JSON_parse config) collecting_start w) = Ok st ->
  c_hasError st = true ->
  match collect JSON_parse Date_now generateId data config (before ++ after) w with
  | (Ok _, w') => w' = {| calls := calls w; res := res w ++ collect_failure |}
  | (Throw _, w') => w' = w
  end.
Proof.
  intros Hst Herror. unfold collect, bind at 1. fold collecting_start.
  rewrite forOf_app. unfold bind at 1.
  pose proof (collect_data_world before collecting_start w) as Hw.
  destruct (forOf before _ collecting_start w) as [[st0|e] w1];
    cbn [fst] in Hst; [|discriminate]. injection Hst as ->. destruct Hw as [-> _].
  pose proof (collect_data_world after st w) as Hw.
  destruct (forOf after _ st w) as [[st'|e] w1]; [|exact Hw].
  destruct Hw as [-> Herr].
  unfold collect_end. rewrite (Herr Herror). cbn. by rewrite <- app_assoc.
Qed.

End Collecting.

Lemma collect_error_final_witness :
  collect JsonText.parse 1700000000000 (fun _ => "abc") (Scenario.ask false (VStr "hi"))
          (Scenario.settings None None (Some "answer"))
          ([Scenario.line Scenario.failed] ++ [Scenario.line (Scenario.finished "hi")]) start
  = (Ok tt, {| calls := []; res := collect_failure |}).
Proof.
  pose proof (collect_error_final JsonText.parse 1700000000000 (fun _ => "abc")
                (Scenario.ask false (VStr "hi")) (Scenario.settings None None (Some "answer"))
                [Scenario.line Scenario.failed] [Scenario.line (Scenario.finished "hi")]
                {| c_result := VStr ""; c_usageData := VStr "";
                   c_buffer := ""; c_hasError := true |}
                start) as H.
  assert (collect JsonText.parse 1700000000000 (fun _ => "abc")
                  (Scenario.ask false (VStr "hi"))
                  (Scenario.settings None None (Some "answer"))
                  ([Scenario.line Scenario.failed]
                   ++ [Scenario.line (Scenario.finished "hi")]) start
          = (Ok tt, snd (collect JsonText.parse 1700000000000 (fun _ => "abc")
                                 (Scenario.ask false (VStr "hi"))
                                 (Scenario.settings None None (Some "answer"))
                                 ([Scenario.line Scenario.failed]
                                  ++ [Scenario.line (Scenario.finished "hi")]) start)))
    as Hrun by (vm_compute; reflexivity).
  rewrite Hrun in H |- *. cbn iota in H.
  rewrite H; [reflexivity | vm_compute; reflexivity | reflexivity].
Defined.

(** ** A request with images, from end to end *)

Example album_calls :
  let w := snd (Scenario.run (Scenario.answer "7") (Scenario.pictures false)
                             (Scenario.settings None None (Some "answer"))) in
  match calls w with
  | [PostFilesUpload _ _ form; PostWorkflowsRun _ _ body] =>
      form_filename form = "file.jpeg"
      /\ form_contentType form = "image/jpeg"
      /\ form_user form = VStr "apiuser"
      /\ body_user body = VStr "apiuser"
      /\ body_response_mode body = "blocking"
      /\ body_files body = []
      /\ read (body_inputs body) "file_input"
         = VArr [local_file (VStr "file-1") (VStr "image");
                 remote_url "https://cdn.example/cat.png" (VStr "image")]
      /\ read (body_inputs body) "text_input" = VStr "compare these"
  | _ => False
  end.
Proof. vm_compute. repeat split. Qed.

(** ** The built-ins on some inputs *)

Example split_lines : split nl ("a" +:+ LF +:+ "bc" +:+ LF) = ["a"; "bc"; ""].
Proof. reflexivity. Qed.

Example split_nothing : split nl "" = [""].
Proof. reflexivity. Qed.

Example trim_line : trim ("  data: {x} " +:+ String cr LF) = "data: {x}".
Proof. reflexivity. Qed.

Example trim_nbsp :
  trim (String "194" (String "160" "a b" +:+ String "226" (String "128" (String "168" "")))) = "a b".
Proof. reflexivity. Qed.

Example exec_greedy :
  DataUri.exec "data:image/png;base64,AAAA;base64,BB" = Some ("image/png;base64,AAAA", "BB").
Proof. reflexivity. Qed.

Example exec_empty_payload : DataUri.exec "data:image/png;base64," = None.
Proof. reflexivity. Qed.

Example toString_truncated :
  Buffer.toString (list_byte_of_string "a" ++ [xc3; xa9] ++ [xc3])
  = "aé" +:+ Buffer.REPLACEMENT.
Proof. reflexivity. Qed.

Example stringify_document :
  Js.stringify (VObj [("error", VStr ("a" +:+ LF +:+ "b")); ("n", VNum (-42));
                      ("u", VUndef); ("l", VArr [VNull; VBool true; VObj []])])
  = JsonText.quoted "{'error':'a\nb','n':-42,'l':[null,true,{}]}".
Proof. reflexivity. Qed.

Example parse_frame :
  JsonText.parse (JsonText.quoted (Scenario.finished "hi"))
  = None
  /\ JsonText.parse (JsonText.quoted (slice 6 (Scenario.finished "hi")))
     = Some (VObj [("event", VStr "workflow_finished");
                   ("created_at", VNum 5);
                   ("data", VObj [("outputs", VObj [("answer", VStr "hi")])])]).
Proof. split; vm_compute; reflexivity. Qed.
